(** * The VC4/VC5 HDMI encoder driver (drivers/gpu/drm/vc4/vc4_hdmi.c)

    A shallow embedding of the parts of the driver that decide the
    properties stated below: the CEA channel-allocation resolver, the
    channel-map control, the HSM clock formulas, the N/CTS computation,
    the timing programmer, the infoframe packet engine and the encoder
    enable/disable sequence.

    C integers are modelled as [Z] with the wrap-around of their width
    written out ([wrap32], [wrap8], ...); bit operations are those of [Z]. *)

From Stdlib Require Import String ZArith List Bool Lia.
Import ListNotations.
Local Open Scope Z_scope.

(** ** Machine integers and bit helpers *)

Definition wrap (w : Z) (x : Z) : Z := x mod 2 ^ w.
Definition wrap8 : Z -> Z := wrap 8.
Definition wrap32 : Z -> Z := wrap 32.
Definition wrap64 : Z -> Z := wrap 64.

(** BIT(n) *)
Definition BIT (n : Z) : Z := Z.shiftl 1 n.

(** errno values used by the driver *)
Definition EINVAL : Z := 22.
Definition ENODEV : Z := 19.
Definition ETIMEDOUT : Z := 110.

(** ** CEA speaker placement and the channel-allocation table *)

Module Spk.
(** enum hdmi_codec_cea_spk_placement *)
Definition FL  : Z := BIT 0.
Definition FC  : Z := BIT 1.
Definition FR  : Z := BIT 2.
Definition FLC : Z := BIT 3.
Definition FRC : Z := BIT 4.
Definition RL  : Z := BIT 5.
Definition RC  : Z := BIT 6.
Definition RR  : Z := BIT 7.
Definition RLC : Z := BIT 8.
Definition RRC : Z := BIT 9.
Definition LFE : Z := BIT 10.
End Spk.
Import Spk.

(** struct hdmi_codec_cea_spk_alloc *)
Record hdmi_codec_cea_spk_alloc : Type := mk_spk_alloc {
  ca_id : Z;
  n_ch : Z;
  mask : Z
}.

Definition spk_or (l : list Z) : Z := fold_left Z.lor l 0.

Definition CA (id n : Z) (speakers : list Z) : hdmi_codec_cea_spk_alloc :=
  mk_spk_alloc id n (spk_or speakers).

(** The ordered table [hdmi_codec_channel_alloc], in source order. *)
Definition hdmi_codec_channel_alloc : list hdmi_codec_cea_spk_alloc :=
  [ CA 0x00 2 [FL; FR];
    (* 2.1 *)
    CA 0x01 4 [FL; FR; LFE];
    (* Dolby Surround *)
    CA 0x02 4 [FL; FR; FC];
    (* surround51 *)
    CA 0x0b 6 [FL; FR; LFE; FC; RL; RR];
    (* surround40 *)
    CA 0x08 6 [FL; FR; RL; RR];
    (* surround41 *)
    CA 0x09 6 [FL; FR; LFE; RL; RR];
    (* surround50 *)
    CA 0x0a 6 [FL; FR; FC; RL; RR];
    (* 6.1 *)
    CA 0x0f 8 [FL; FR; LFE; FC; RL; RR; RC];
    (* surround71 *)
    CA 0x13 8 [FL; FR; LFE; FC; RL; RR; RLC; RRC];
    (* others *)
    CA 0x03 8 [FL; FR; LFE; FC];
    CA 0x04 8 [FL; FR; RC];
    CA 0x05 8 [FL; FR; LFE; RC];
    CA 0x06 8 [FL; FR; FC; RC];
    CA 0x07 8 [FL; FR; LFE; FC; RC];
    CA 0x0c 8 [FL; FR; RC; RL; RR];
    CA 0x0d 8 [FL; FR; LFE; RL; RR; RC];
    CA 0x0e 8 [FL; FR; FC; RL; RR; RC];
    CA 0x10 8 [FL; FR; RL; RR; RLC; RRC];
    CA 0x11 8 [FL; FR; LFE; RL; RR; RLC; RRC];
    CA 0x12 8 [FL; FR; FC; RL; RR; RLC; RRC];
    CA 0x14 8 [FL; FR; FLC; FRC];
    CA 0x15 8 [FL; FR; LFE; FLC; FRC];
    CA 0x16 8 [FL; FR; FC; FLC; FRC];
    CA 0x17 8 [FL; FR; LFE; FC; FLC; FRC];
    CA 0x18 8 [FL; FR; RC; FLC; FRC];
    CA 0x19 8 [FL; FR; LFE; RC; FLC; FRC];
    CA 0x1a 8 [FL; FR; RC; FC; FLC; FRC];
    CA 0x1b 8 [FL; FR; LFE; RC; FC; FLC; FRC];
    CA 0x1c 8 [FL; FR; RL; RR; FLC; FRC];
    CA 0x1d 8 [FL; FR; LFE; RL; RR; FLC; FRC];
    CA 0x1e 8 [FL; FR; FC; RL; RR; FLC; FRC];
    CA 0x1f 8 [FL; FR; LFE; FC; RL; RR; FLC; FRC] ].

(** The local table [hdmi_codec_eld_spk_alloc_bits] of
    [hdmi_codec_spk_mask_from_alloc]: entry [i] is the speaker group of
    bit [i] of the ELD speaker-allocation byte. *)
Definition hdmi_codec_eld_spk_alloc_bits : list Z :=
  [ Z.lor FL FR; LFE; FC; Z.lor RL RR; RC; Z.lor FLC FRC; Z.lor RLC RRC ].

(** The [for] loop of [hdmi_codec_spk_mask_from_alloc], from index [i] on. *)
Fixpoint spk_mask_loop (spk_alloc : Z) (i : Z) (bits : list Z) (spk_mask : Z) : Z :=
  match bits with
  | [] => spk_mask
  | b :: rest =>
      let spk_mask' :=
        if negb (Z.land spk_alloc (Z.shiftl 1 i) =? 0)
        then Z.lor spk_mask b else spk_mask in
      spk_mask_loop spk_alloc (i + 1) rest spk_mask'
  end.

Definition hdmi_codec_spk_mask_from_alloc (spk_alloc : Z) : Z :=
  spk_mask_loop spk_alloc 0 hdmi_codec_eld_spk_alloc_bits 0.

(** The scan of [hdmi_codec_get_ch_alloc_table_idx], with [cap] the rest of
    the table from index [i]; the result is the index, or [-EINVAL]. *)
Fixpoint ch_alloc_scan (spk_alloc spk_mask channels : Z) (i : Z)
         (cap : list hdmi_codec_cea_spk_alloc) : Z :=
  match cap with
  | [] => - EINVAL
  | c :: rest =>
      (* If spk_alloc == 0, HDMI is unplugged return stereo config *)
      if (spk_alloc =? 0) && (ca_id c =? 0) then i
      else if negb (n_ch c =? channels) then
        ch_alloc_scan spk_alloc spk_mask channels (i + 1) rest
      else if negb (mask c =? Z.land spk_mask (mask c)) then
        ch_alloc_scan spk_alloc spk_mask channels (i + 1) rest
      else i
  end.

(** [hdmi_codec_get_ch_alloc_table_idx]: [spk_alloc] is the byte that
    [drm_eld_get_spk_alloc(connector->eld)] yields (a [u8]), [channels] the
    [unsigned char] argument. *)
Definition hdmi_codec_get_ch_alloc_table_idx (spk_alloc channels : Z) : Z :=
  let spk_mask := hdmi_codec_spk_mask_from_alloc spk_alloc in
  ch_alloc_scan spk_alloc spk_mask channels 0 hdmi_codec_channel_alloc.

(** *** The lookup as the specification words it

    "First entry whose channel-count field equals the requested count AND
    whose required-speaker-mask is a subset of the presence bitmask wins." *)

Definition entry_matches (channels spk_mask : Z) (c : hdmi_codec_cea_spk_alloc) : bool :=
  (n_ch c =? channels) && (Z.land (mask c) spk_mask =? mask c).

Fixpoint first_match_from (channels spk_mask : Z) (i : Z)
         (tbl : list hdmi_codec_cea_spk_alloc) : option Z :=
  match tbl with
  | [] => None
  | c :: rest =>
      if entry_matches channels spk_mask c then Some i
      else first_match_from channels spk_mask (i + 1) rest
  end.

Definition spec_first_match (channels spk_mask : Z) : option Z :=
  first_match_from channels spk_mask 0 hdmi_codec_channel_alloc.

(** [i] is the index of the first entry of the table that matches. *)
Definition is_first_match (channels spk_mask : Z) (i : Z) : Prop :=
  exists n : nat,
    i = Z.of_nat n /\
    (exists c, nth_error hdmi_codec_channel_alloc n = Some c /\
               entry_matches channels spk_mask c = true) /\
    (forall n' c, (n' < n)%nat ->
                  nth_error hdmi_codec_channel_alloc n' = Some c ->
                  entry_matches channels spk_mask c = false).

(** ** Channel maps *)

(** The ALSA channel positions (the SNDRV_CHMAP constants) that the tables use;
    [SNDRV_CHMAP_UNKNOWN] is the zero that fills the unset tail of a map. *)
Inductive snd_chmap : Type :=
| SNDRV_CHMAP_UNKNOWN | SNDRV_CHMAP_NA
| SNDRV_CHMAP_FL | SNDRV_CHMAP_FR | SNDRV_CHMAP_RL | SNDRV_CHMAP_RR
| SNDRV_CHMAP_FC | SNDRV_CHMAP_LFE | SNDRV_CHMAP_RC
| SNDRV_CHMAP_FLC | SNDRV_CHMAP_FRC | SNDRV_CHMAP_RLC | SNDRV_CHMAP_RRC.

(** struct snd_pcm_chmap_elem: the fields [channels] and [map] (15 bytes). *)
Record snd_pcm_chmap_elem : Type := mk_chmap_elem {
  elem_channels : Z;
  elem_map : list snd_chmap
}.

(** A designated initializer [{ .channels = n, .map = { ... } }]: the
    positions given, the rest of the 15 slots zero. *)
Definition chmap_init (n : Z) (m : list snd_chmap) : snd_pcm_chmap_elem :=
  mk_chmap_elem n (m ++ repeat SNDRV_CHMAP_UNKNOWN (15 - length m)).

(** The terminating [{ }] element. *)
Definition chmap_end : snd_pcm_chmap_elem := chmap_init 0 [].

Definition hdmi_codec_stereo_chmaps : list snd_pcm_chmap_elem :=
  [ chmap_init 2 [SNDRV_CHMAP_FL; SNDRV_CHMAP_FR];
    chmap_end ].

Definition hdmi_codec_8ch_chmaps : list snd_pcm_chmap_elem :=
  let FL := SNDRV_CHMAP_FL in let FR := SNDRV_CHMAP_FR in
  let LFE := SNDRV_CHMAP_LFE in let FC := SNDRV_CHMAP_FC in
  let RL := SNDRV_CHMAP_RL in let RR := SNDRV_CHMAP_RR in
  let RC := SNDRV_CHMAP_RC in let NA := SNDRV_CHMAP_NA in
  let FLC := SNDRV_CHMAP_FLC in let FRC := SNDRV_CHMAP_FRC in
  let RLC := SNDRV_CHMAP_RLC in let RRC := SNDRV_CHMAP_RRC in
  [ chmap_init 2 [FL; FR];                               (* CA_ID 0x00 *)
    chmap_init 4 [FL; FR; LFE; NA];                      (* CA_ID 0x01 *)
    chmap_init 4 [FL; FR; NA; FC];                       (* CA_ID 0x02 *)
    chmap_init 4 [FL; FR; LFE; FC];                      (* CA_ID 0x03 *)
    chmap_init 6 [FL; FR; NA; NA; RC; NA];               (* CA_ID 0x04 *)
    chmap_init 6 [FL; FR; LFE; NA; RC; NA];              (* CA_ID 0x05 *)
    chmap_init 6 [FL; FR; NA; FC; RC; NA];               (* CA_ID 0x06 *)
    chmap_init 6 [FL; FR; LFE; FC; RC; NA];              (* CA_ID 0x07 *)
    chmap_init 6 [FL; FR; NA; NA; RL; RR];               (* CA_ID 0x08 *)
    chmap_init 6 [FL; FR; LFE; NA; RL; RR];              (* CA_ID 0x09 *)
    chmap_init 6 [FL; FR; NA; FC; RL; RR];               (* CA_ID 0x0A *)
    chmap_init 6 [FL; FR; LFE; FC; RL; RR];              (* CA_ID 0x0B *)
    chmap_init 8 [FL; FR; NA; NA; RL; RR; RC; NA];       (* CA_ID 0x0C *)
    chmap_init 8 [FL; FR; LFE; NA; RL; RR; RC; NA];      (* CA_ID 0x0D *)
    chmap_init 8 [FL; FR; NA; FC; RL; RR; RC; NA];       (* CA_ID 0x0E *)
    chmap_init 8 [FL; FR; LFE; FC; RL; RR; RC; NA];      (* CA_ID 0x0F *)
    chmap_init 8 [FL; FR; NA; NA; RL; RR; RLC; RRC];     (* CA_ID 0x10 *)
    chmap_init 8 [FL; FR; LFE; NA; RL; RR; RLC; RRC];    (* CA_ID 0x11 *)
    chmap_init 8 [FL; FR; NA; FC; RL; RR; RLC; RRC];     (* CA_ID 0x12 *)
    chmap_init 8 [FL; FR; LFE; FC; RL; RR; RLC; RRC];    (* CA_ID 0x13 *)
    chmap_init 8 [FL; FR; NA; NA; NA; NA; FLC; FRC];     (* CA_ID 0x14 *)
    chmap_init 8 [FL; FR; LFE; NA; NA; NA; FLC; FRC];    (* CA_ID 0x15 *)
    chmap_init 8 [FL; FR; NA; FC; NA; NA; FLC; FRC];     (* CA_ID 0x16 *)
    chmap_init 8 [FL; FR; LFE; FC; NA; NA; FLC; FRC];    (* CA_ID 0x17 *)
    chmap_init 8 [FL; FR; NA; NA; NA; NA; FLC; FRC];     (* CA_ID 0x18 *)
    chmap_init 8 [FL; FR; LFE; NA; NA; NA; FLC; FRC];    (* CA_ID 0x19 *)
    chmap_init 8 [FL; FR; NA; FC; NA; NA; FLC; FRC];     (* CA_ID 0x1A *)
    chmap_init 8 [FL; FR; LFE; FC; NA; NA; FLC; FRC];    (* CA_ID 0x1B *)
    chmap_init 8 [FL; FR; NA; NA; NA; NA; FLC; FRC];     (* CA_ID 0x1C *)
    chmap_init 8 [FL; FR; LFE; NA; NA; NA; FLC; FRC];    (* CA_ID 0x1D *)
    chmap_init 8 [FL; FR; NA; FC; NA; NA; FLC; FRC];     (* CA_ID 0x1E *)
    chmap_init 8 [FL; FR; LFE; FC; NA; NA; FLC; FRC];    (* CA_ID 0x1F *)
    chmap_end ].

(** The value of the pointer [audio.chmap]: NULL or one of the two tables. *)
Inductive chmap_ptr : Type :=
| CHMAP_NULL
| CHMAP_STEREO      (* hdmi_codec_stereo_chmaps *)
| CHMAP_8CH.        (* hdmi_codec_8ch_chmaps *)

Definition chmap_table (p : chmap_ptr) : list snd_pcm_chmap_elem :=
  match p with
  | CHMAP_NULL => []
  | CHMAP_STEREO => hdmi_codec_stereo_chmaps
  | CHMAP_8CH => hdmi_codec_8ch_chmaps
  end.

(** [hdmi_codec_eld_chmap]: the new value of [audio.chmap], from the ELD's
    speaker-allocation byte. [~(FL | FR)] is [Z.lnot], the complement on
    every bit of the [unsigned long]. *)
Definition hdmi_codec_eld_chmap (spk_alloc : Z) : chmap_ptr :=
  let spk_mask := hdmi_codec_spk_mask_from_alloc spk_alloc in
  (* Detect if only stereo supported, else return 8 channels mappings *)
  if negb (Z.land spk_mask (Z.lnot (Z.lor FL FR)) =? 0)
  then CHMAP_8CH
  else CHMAP_STEREO.

Definition HDMI_CODEC_CHMAP_IDX_UNKNOWN : Z := -1.

(** ** Registers, bit fields and the constants of the register header *)

(** The registers the modelled functions touch (HDMI_xxx field names). *)
Inductive hdmi_reg : Type :=
| HDMI_RAM_PACKET_CONFIG | HDMI_RAM_PACKET_STATUS
| HDMI_VID_CTL | HDMI_SCHEDULER_CONTROL | HDMI_FIFO_CTL
| HDMI_HORZA | HDMI_HORZB
| HDMI_VERTA0 | HDMI_VERTA1 | HDMI_VERTB0 | HDMI_VERTB1
| HDMI_VEC_INTERFACE_XBAR | HDMI_CLOCK_STOP
| HDMI_CSC_CTL
| HDMI_CSC_12_11 | HDMI_CSC_14_13 | HDMI_CSC_22_21
| HDMI_CSC_24_23 | HDMI_CSC_32_31 | HDMI_CSC_34_33
| HDMI_SW_RESET_CONTROL | HDMI_DVP_CTL
| HDMI_MAI_CTL | HDMI_MAI_SMP | HDMI_MAI_FMT | HDMI_MAI_THR
| HDMI_MAI_CONFIG | HDMI_MAI_CHANNEL_MAP | HDMI_AUDIO_PACKET_CONFIG
| HDMI_CRP_CFG | HDMI_CTS_0 | HDMI_CTS_1.

Scheme Equality for hdmi_reg.

(** A register bit field: the pair FIELD_SHIFT, FIELD_MASK. *)
Record field : Type := mk_field { f_shift : Z; f_mask : Z }.

(** VC4_MASK(high, low): the bits [low..high] of a 32-bit word. *)
Definition VC4_MASK (high low : Z) : Z := 2 ^ (high + 1) - 2 ^ low.

(** VC4_SET_FIELD(value, field): the value shifted into place as a
    [uint32_t] and masked. *)
Definition VC4_SET_FIELD (value : Z) (f : field) : Z :=
  Z.land (wrap32 (Z.shiftl value (f_shift f))) (f_mask f).

(** The VC5 fields, defined at the top of vc4_hdmi.c. *)
Definition VC5_HDMI_HORZA_HFP : field := mk_field 16 (VC4_MASK 28 16).
Definition VC5_HDMI_HORZA_VPOS : Z := BIT 15.
Definition VC5_HDMI_HORZA_HPOS : Z := BIT 14.
Definition VC5_HDMI_HORZA_HAP : field := mk_field 0 (VC4_MASK 13 0).
Definition VC5_HDMI_HORZB_HBP : field := mk_field 16 (VC4_MASK 26 16).
Definition VC5_HDMI_HORZB_HSP : field := mk_field 0 (VC4_MASK 10 0).
Definition VC5_HDMI_VERTA_VSP : field := mk_field 24 (VC4_MASK 28 24).
Definition VC5_HDMI_VERTA_VFP : field := mk_field 16 (VC4_MASK 22 16).
Definition VC5_HDMI_VERTA_VAL : field := mk_field 0 (VC4_MASK 12 0).
Definition VC5_HDMI_VERTB_VSPO : field := mk_field 16 (VC4_MASK 29 16).

Definition VC4_HSM_CLOCK : Z := 163682864.

(** The MAI audio formats and sample-rate codes (enumerations of
    vc4_regs.h), by name. *)
Inductive mai_audio_format_t : Type :=
| VC4_HDMI_MAI_FORMAT_PCM
| VC4_HDMI_MAI_FORMAT_HBR.

Inductive mai_sample_rate_t : Type :=
| VC4_HDMI_MAI_SAMPLE_RATE_NOT_INDICATED
| VC4_HDMI_MAI_SAMPLE_RATE_8000
| VC4_HDMI_MAI_SAMPLE_RATE_11025
| VC4_HDMI_MAI_SAMPLE_RATE_12000
| VC4_HDMI_MAI_SAMPLE_RATE_16000
| VC4_HDMI_MAI_SAMPLE_RATE_22050
| VC4_HDMI_MAI_SAMPLE_RATE_24000
| VC4_HDMI_MAI_SAMPLE_RATE_32000
| VC4_HDMI_MAI_SAMPLE_RATE_44100
| VC4_HDMI_MAI_SAMPLE_RATE_48000
| VC4_HDMI_MAI_SAMPLE_RATE_64000
| VC4_HDMI_MAI_SAMPLE_RATE_88200
| VC4_HDMI_MAI_SAMPLE_RATE_96000
| VC4_HDMI_MAI_SAMPLE_RATE_128000
| VC4_HDMI_MAI_SAMPLE_RATE_176400
| VC4_HDMI_MAI_SAMPLE_RATE_192000.

(** The constants that vc4_hdmi.c takes from headers (vc4_regs.h,
    vc4_hdmi.h, drm_mode.h, asoundef.h): the driver is modelled for any
    value of them. *)
Record header_consts : Type := mk_header_consts {
  (* the width of [unsigned long] on the platform *)
  BITS_PER_LONG : Z;
  (* vc4_hdmi.h, vc4_hdmi_regs.h *)
  VC4_HDMI_PACKET_STRIDE : Z;
  HDMI_RAM_PACKET_START_offset : Z;  (* registers[HDMI_RAM_PACKET_START].offset *)
  (* drm_mode.h *)
  DRM_MODE_FLAG_PHSYNC : Z;
  DRM_MODE_FLAG_PVSYNC : Z;
  DRM_MODE_FLAG_INTERLACE : Z;
  DRM_MODE_FLAG_DBLCLK : Z;
  (* asoundef.h *)
  IEC958_AES0_NONAUDIO : Z;
  (* vc4_regs.h *)
  VC4_HDMI_RAM_PACKET_ENABLE : Z;
  VC4_HD_VID_CTL_ENABLE : Z;
  VC4_HD_VID_CTL_UNDERFLOW_ENABLE : Z;
  VC4_HD_VID_CTL_FRAME_COUNTER_RESET : Z;
  VC4_HD_VID_CTL_VSYNC_LOW : Z;
  VC4_HD_VID_CTL_HSYNC_LOW : Z;
  VC4_HDMI_SCHEDULER_CONTROL_MANUAL_FORMAT : Z;
  VC4_HDMI_SCHEDULER_CONTROL_IGNORE_VSYNC_PREDICTS : Z;
  VC4_HDMI_SCHEDULER_CONTROL_VERT_ALWAYS_KEEPOUT : Z;
  VC4_HDMI_SCHEDULER_CONTROL_HDMI_ACTIVE : Z;
  VC4_HDMI_SCHEDULER_CONTROL_MODE_HDMI : Z;
  VC4_HDMI_FIFO_CTL_MASTER_SLAVE_N : Z;
  VC4_HDMI_FIFO_VALID_WRITE_MASK : Z;
  VC4_HDMI_FIFO_CTL_RECENTER : Z;
  VC4_HDMI_FIFO_CTL_RECENTER_DONE : Z;
  VC4_HDMI_SW_RESET_HDMI : Z;
  VC4_HDMI_SW_RESET_FORMAT_DETECT : Z;
  VC4_HD_CSC_CTL_ORDER : field;
  VC4_HD_CSC_CTL_ORDER_BGR : Z;
  VC4_HD_CSC_CTL_ENABLE : Z;
  VC4_HD_CSC_CTL_RGB2YCC : Z;
  VC4_HD_CSC_CTL_MODE : field;
  VC4_HD_CSC_CTL_MODE_CUSTOM : Z;
  VC4_HDMI_HORZA_VPOS : Z;
  VC4_HDMI_HORZA_HPOS : Z;
  VC4_HDMI_HORZA_HAP : field;
  VC4_HDMI_HORZB_HBP : field;
  VC4_HDMI_HORZB_HSP : field;
  VC4_HDMI_HORZB_HFP : field;
  VC4_HDMI_VERTA_VSP : field;
  VC4_HDMI_VERTA_VFP : field;
  VC4_HDMI_VERTA_VAL : field;
  VC4_HDMI_VERTB_VSPO : field;
  VC4_HDMI_VERTB_VBP : field;
  VC4_HD_MAI_CTL_RESET : Z;
  VC4_HD_MAI_CTL_FLUSH : Z;
  VC4_HD_MAI_CTL_DLATE : Z;
  VC4_HD_MAI_CTL_ERRORE : Z;
  VC4_HD_MAI_CTL_ERRORF : Z;
  VC4_HD_MAI_SMP_N : field;
  VC4_HD_MAI_SMP_M : field;
  VC4_HDMI_MAI_FORMAT_SAMPLE_RATE : field;
  VC4_HDMI_MAI_FORMAT_AUDIO_FORMAT : field;
  mai_audio_format_code : mai_audio_format_t -> Z;
  mai_sample_rate_code : mai_sample_rate_t -> Z;
  VC4_HDMI_AUDIO_PACKET_ZERO_DATA_ON_SAMPLE_FLAT : Z;
  VC4_HDMI_AUDIO_PACKET_ZERO_DATA_ON_INACTIVE_CHANNELS : Z;
  VC4_HDMI_AUDIO_PACKET_B_FRAME_IDENTIFIER : field;
  VC4_HDMI_AUDIO_PACKET_CEA_MASK : field;
  VC4_HD_MAI_THR_PANICHIGH : field;
  VC4_HD_MAI_THR_PANICLOW : field;
  VC4_HD_MAI_THR_DREQHIGH : field;
  VC4_HD_MAI_THR_DREQLOW : field;
  VC4_HDMI_MAI_CONFIG_BIT_REVERSE : Z;
  VC4_HDMI_MAI_CONFIG_FORMAT_REVERSE : Z;
  VC4_HDMI_MAI_CHANNEL_MASK : field;
  VC4_HDMI_CRP_CFG_EXTERNAL_CTS_EN : Z;
  VC4_HDMI_CRP_CFG_N : field
}.

(** ** The device: state, events and the calls into the rest of the kernel *)

(** struct drm_display_mode, the fields the encoder reads (all [int],
    [flags] a [u32]). *)
Record drm_display_mode : Type := mk_mode {
  clock : Z;            (* in kHz *)
  hdisplay : Z;
  hsync_start : Z;
  hsync_end : Z;
  htotal : Z;
  crtc_vdisplay : Z;
  crtc_vsync_start : Z;
  crtc_vsync_end : Z;
  crtc_vtotal : Z;
  flags : Z
}.

Inductive clk_id : Type := PIXEL_CLOCK | HSM_CLOCK.

(** A clock as the clock framework keeps it. *)
Record clk : Type := mk_clk {
  clk_rate : Z;
  clk_enable_count : Z
}.

(** The variant hooks that live in other files (vc4_hdmi_phy.c) and the
    reset controller. *)
Inductive hook : Type :=
| PHY_INIT | PHY_DISABLE | PHY_RNG_ENABLE | PHY_RNG_DISABLE
| RESET_CONTROL_RESET.

(** What the driver does to the outside, in program order. *)
Inductive event : Type :=
| EvWrite (r : hdmi_reg) (v : Z)     (* HDMI_WRITE(r, v) *)
| EvWritel (offset : Z) (v : Z)      (* writel(v, base + offset), packet RAM *)
| EvError (msg : string)             (* DRM_ERROR, dev_err *)
| EvWarn (msg : string)              (* WARN_ONCE, WARN_ON *)
| EvHook (h : hook)
| EvSleep.                           (* usleep_range(1000, 1100) *)

(** struct vc4_hdmi_audio, the fields used here. *)
Record vc4_hdmi_audio : Type := mk_audio {
  audio_channels : Z;
  audio_samplerate : Z;
  iec_status0 : Z;                   (* iec_status[0] *)
  streaming : bool;
  chmap : chmap_ptr;
  chmap_idx : Z;
  max_channels : Z;
  substream : option nat             (* NULL, or the stream that owns the DAI *)
}.

(** struct vc4_hdmi with its encoder, clocks and power domain. *)
Record vc4_hdmi : Type := mk_hdmi {
  regs : hdmi_reg -> Z;              (* last value written to a register *)
  usage_count : Z;                   (* power-domain references held *)
  pixel_clock : clk;
  hsm_clock : clk;
  hdmi_monitor : bool;
  limited_rgb_range : bool;
  audio : vc4_hdmi_audio;
  trace : list event
}.

(** The places where the driver polls the hardware with [wait_for]. *)
Inductive wait_site : Type :=
| WAIT_PACKET_IDLE (packet_id : Z)      (* vc4_hdmi_stop_packet *)
| WAIT_PACKET_ACTIVE (packet_id : Z)    (* vc4_hdmi_write_infoframe *)
| WAIT_HDMI_ACTIVE
| WAIT_HDMI_INACTIVE
| WAIT_RECENTER_DONE.

(** union hdmi_infoframe, as the driver fills it. *)
Inductive hdmi_infoframe : Type :=
| AVI_INFOFRAME (limited_range : bool)
| SPD_INFOFRAME
| AUDIO_INFOFRAME (nchannels channel_allocation : Z).

(** [frame->any.type] (enum hdmi_infoframe_type). *)
Definition any_type (f : hdmi_infoframe) : Z :=
  match f with
  | AVI_INFOFRAME _ => 0x82
  | SPD_INFOFRAME => 0x83
  | AUDIO_INFOFRAME _ _ => 0x84
  end.

(** The answers of the rest of the kernel and of the hardware to the
    driver's calls; every function of the driver is modelled for any of
    them. *)
Record kernel_env : Type := mk_env {
  pm_runtime_get_sync_ret : Z;
  pm_runtime_put_ret : Z;
  clk_set_rate_ret : clk_id -> Z;
  clk_prepare_enable_ret : clk_id -> Z;
  (* wait_for(COND, MS): 0, or -ETIMEDOUT *)
  wait_for_ret : wait_site -> Z;
  (* readl: the value read back, from the last value written *)
  hw_read : hdmi_reg -> Z -> Z;
  (* drm_hdmi_avi_infoframe_from_display_mode, hdmi_spd_infoframe_init *)
  avi_infoframe_from_display_mode_ret : Z;
  spd_infoframe_init_ret : Z;
  (* hdmi_infoframe_pack(frame, buffer, sizeof(buffer)): the length or a
     negative errno, and the buffer it filled *)
  hdmi_infoframe_pack : hdmi_infoframe -> Z * list Z;
  (* drm_default_rgb_quant_range(mode) == HDMI_QUANTIZATION_RANGE_LIMITED *)
  default_rgb_quant_range_limited : drm_display_mode -> bool;
  (* snd_pcm_hw_constraint_eld(substream->runtime, connector->eld) *)
  snd_pcm_hw_constraint_eld_ret : Z;
  (* rational_best_approximation(num, den, max_num, max_den, &n, &m) *)
  rational_best_approximation : Z -> Z -> Z -> Z -> Z * Z
}.

(** *** A state monad over the device *)

Definition M (A : Type) : Type := vc4_hdmi -> A * vc4_hdmi.

Definition ret {A} (a : A) : M A := fun s => (a, s).
Definition bind {A B} (c : M A) (k : A -> M B) : M B :=
  fun s => let (a, s') := c s in k a s'.

Declare Scope drv_scope.
Delimit Scope drv_scope with drv.
Notation "x <- c ;; k" := (bind c (fun x => k))
  (at level 61, c at next level, right associativity) : drv_scope.
Notation "c ;; k" := (bind c (fun _ => k))
  (at level 61, right associativity) : drv_scope.
Local Open Scope drv_scope.

Definition exec {A} (c : M A) (s : vc4_hdmi) : vc4_hdmi := snd (c s).
Definition eval {A} (c : M A) (s : vc4_hdmi) : A := fst (c s).

Definition emit (ev : event) : M unit :=
  fun s => (tt, mk_hdmi (regs s) (usage_count s) (pixel_clock s) (hsm_clock s)
                        (hdmi_monitor s) (limited_rgb_range s) (audio s)
                        (trace s ++ [ev])).

Definition set_regs (f : hdmi_reg -> Z) : M unit :=
  fun s => (tt, mk_hdmi f (usage_count s) (pixel_clock s) (hsm_clock s)
                        (hdmi_monitor s) (limited_rgb_range s) (audio s)
                        (trace s)).

Definition set_usage_count (n : Z) : M unit :=
  fun s => (tt, mk_hdmi (regs s) n (pixel_clock s) (hsm_clock s)
                        (hdmi_monitor s) (limited_rgb_range s) (audio s)
                        (trace s)).

Definition get_clk (id : clk_id) : M clk :=
  fun s => (match id with PIXEL_CLOCK => pixel_clock s | HSM_CLOCK => hsm_clock s end, s).

Definition set_clk (id : clk_id) (c : clk) : M unit :=
  fun s => (tt,
    match id with
    | PIXEL_CLOCK => mk_hdmi (regs s) (usage_count s) c (hsm_clock s)
                        (hdmi_monitor s) (limited_rgb_range s) (audio s) (trace s)
    | HSM_CLOCK => mk_hdmi (regs s) (usage_count s) (pixel_clock s) c
                        (hdmi_monitor s) (limited_rgb_range s) (audio s) (trace s)
    end).

Definition set_limited_rgb_range (b : bool) : M unit :=
  fun s => (tt, mk_hdmi (regs s) (usage_count s) (pixel_clock s) (hsm_clock s)
                        (hdmi_monitor s) b (audio s) (trace s)).

Definition get_audio : M vc4_hdmi_audio := fun s => (audio s, s).

Definition set_audio (a : vc4_hdmi_audio) : M unit :=
  fun s => (tt, mk_hdmi (regs s) (usage_count s) (pixel_clock s) (hsm_clock s)
                        (hdmi_monitor s) (limited_rgb_range s) a (trace s)).

Definition get_hdmi_monitor : M bool := fun s => (hdmi_monitor s, s).

(** [when c m]: [if (c) m;] *)
Definition when (c : bool) (m : M unit) : M unit := if c then m else ret tt.

(** ** The driver *)

Section Driver.

Variable K : header_consts.
Variable e : kernel_env.

(** HDMI_READ and HDMI_WRITE. A written value is a [u32]. *)
Definition HDMI_READ (r : hdmi_reg) : M Z :=
  fun s => (hw_read e r (regs s r), s).

Definition HDMI_WRITE (r : hdmi_reg) (v : Z) : M unit :=
  fun s =>
    let v32 := wrap32 v in
    let regs' := fun r' => if hdmi_reg_beq r' r then v32 else regs s r' in
    (tt, mk_hdmi regs' (usage_count s) (pixel_clock s) (hsm_clock s)
                 (hdmi_monitor s) (limited_rgb_range s) (audio s)
                 (trace s ++ [EvWrite r v32])).

(** wait_for(COND, MS): the hardware's answer, 0 or -ETIMEDOUT. *)
Definition wait_for (w : wait_site) : M Z := ret (wait_for_ret e w).

(** *** Power domain and clocks *)

(** Modelled from the spec: the power/clock provider of section 6, which
    the kernel implements outside this file ("acquire()/release() power
    domain", "set_rate(clock_id, hz), enable(clock_id), disable(clock_id)").
    A call that fails changes nothing; a successful acquire or enable is
    counted, and a release or disable gives one back. *)
Definition pm_runtime_get_sync : M Z :=
  fun s =>
    let r := pm_runtime_get_sync_ret e in
    if r <? 0 then (r, s)
    else (r, exec (set_usage_count (usage_count s + 1)) s).

(** Modelled from the spec: release of the power domain (section 6). *)
Definition pm_runtime_put : M Z :=
  fun s =>
    let n := usage_count s in
    (pm_runtime_put_ret e,
     exec (set_usage_count (if 0 <? n then n - 1 else n)) s).

(** Modelled from the spec: set_rate(clock_id, hz) (section 6). *)
Definition clk_set_rate (id : clk_id) (rate : Z) : M Z :=
  let r := clk_set_rate_ret e id in
  c <- get_clk id ;;
  when (r =? 0) (set_clk id (mk_clk rate (clk_enable_count c))) ;;
  ret r.

(** Modelled from the spec: enable(clock_id) (section 6). *)
Definition clk_prepare_enable (id : clk_id) : M Z :=
  let r := clk_prepare_enable_ret e id in
  c <- get_clk id ;;
  when (r =? 0) (set_clk id (mk_clk (clk_rate c) (clk_enable_count c + 1))) ;;
  ret r.

(** Modelled from the spec: disable(clock_id) (section 6). *)
Definition clk_disable_unprepare (id : clk_id) : M unit :=
  c <- get_clk id ;;
  let n := clk_enable_count c in
  set_clk id (mk_clk (clk_rate c) (if 0 <? n then n - 1 else n)).

Definition clk_get_rate (id : clk_id) : M Z :=
  c <- get_clk id ;; ret (clk_rate c).

(** *** Reset *)

Definition vc4_hdmi_reset : M unit :=
  HDMI_WRITE HDMI_SW_RESET_CONTROL
    (Z.lor (VC4_HDMI_SW_RESET_HDMI K) (VC4_HDMI_SW_RESET_FORMAT_DETECT K)) ;;
  HDMI_WRITE HDMI_SW_RESET_CONTROL 0.

Definition vc5_hdmi_reset : M unit :=
  emit (EvHook RESET_CONTROL_RESET) ;;
  HDMI_WRITE HDMI_DVP_CTL 0.

(** *** Colour-space conversion *)

Definition vc4_hdmi_csc_setup (enable : bool) : M unit :=
  let csc_ctl := VC4_SET_FIELD (VC4_HD_CSC_CTL_ORDER_BGR K) (VC4_HD_CSC_CTL_ORDER K) in
  let csc_ctl :=
    if enable then
      Z.lor (Z.lor (Z.lor csc_ctl (VC4_HD_CSC_CTL_ENABLE K)) (VC4_HD_CSC_CTL_RGB2YCC K))
            (VC4_SET_FIELD (VC4_HD_CSC_CTL_MODE_CUSTOM K) (VC4_HD_CSC_CTL_MODE K))
    else csc_ctl in
  when enable
    (HDMI_WRITE HDMI_CSC_12_11 (Z.lor (Z.shiftl 0x000 16) 0x000) ;;
     HDMI_WRITE HDMI_CSC_14_13 (Z.lor (Z.shiftl 0x100 16) 0x6e0) ;;
     HDMI_WRITE HDMI_CSC_22_21 (Z.lor (Z.shiftl 0x6e0 16) 0x000) ;;
     HDMI_WRITE HDMI_CSC_24_23 (Z.lor (Z.shiftl 0x100 16) 0x000) ;;
     HDMI_WRITE HDMI_CSC_32_31 (Z.lor (Z.shiftl 0x000 16) 0x6e0) ;;
     HDMI_WRITE HDMI_CSC_34_33 (Z.lor (Z.shiftl 0x100 16) 0x000)) ;;
  (* The RGB order applies even when CSC is disabled. *)
  HDMI_WRITE HDMI_CSC_CTL csc_ctl.

Definition vc5_hdmi_csc_setup (enable : bool) : M unit :=
  let csc_ctl := 0x07 in
  (if enable then
     HDMI_WRITE HDMI_CSC_12_11 (Z.lor (Z.shiftl 0x0000 16) 0x1b80) ;;
     HDMI_WRITE HDMI_CSC_14_13 (Z.lor (Z.shiftl 0x0400 16) 0x0000) ;;
     HDMI_WRITE HDMI_CSC_22_21 (Z.lor (Z.shiftl 0x1b80 16) 0x0000) ;;
     HDMI_WRITE HDMI_CSC_24_23 (Z.lor (Z.shiftl 0x0400 16) 0x0000) ;;
     HDMI_WRITE HDMI_CSC_32_31 (Z.lor (Z.shiftl 0x0000 16) 0x0000) ;;
     HDMI_WRITE HDMI_CSC_34_33 (Z.lor (Z.shiftl 0x0400 16) 0x1b80)
   else
     HDMI_WRITE HDMI_CSC_12_11 (Z.lor (Z.shiftl 0x0000 16) 0x2000) ;;
     HDMI_WRITE HDMI_CSC_14_13 (Z.lor (Z.shiftl 0x0000 16) 0x0000) ;;
     HDMI_WRITE HDMI_CSC_22_21 (Z.lor (Z.shiftl 0x2000 16) 0x0000) ;;
     HDMI_WRITE HDMI_CSC_24_23 (Z.lor (Z.shiftl 0x0000 16) 0x0000) ;;
     HDMI_WRITE HDMI_CSC_32_31 (Z.lor (Z.shiftl 0x0000 16) 0x0000) ;;
     HDMI_WRITE HDMI_CSC_34_33 (Z.lor (Z.shiftl 0x0000 16) 0x2000)) ;;
  HDMI_WRITE HDMI_CSC_CTL csc_ctl.

(** *** Timing programmer *)

(** [flags & FLAG], as a C truth value. *)
Definition flag_set (fl flag : Z) : bool := negb (Z.land fl flag =? 0).

Definition b2z (b : bool) : Z := if b then 1 else 0.

Definition vc4_hdmi_set_timings (mode : drm_display_mode) : M unit :=
  let hsync_pos := flag_set (flags mode) (DRM_MODE_FLAG_PHSYNC K) in
  let vsync_pos := flag_set (flags mode) (DRM_MODE_FLAG_PVSYNC K) in
  let interlaced := flag_set (flags mode) (DRM_MODE_FLAG_INTERLACE K) in
  let pixel_rep := if flag_set (flags mode) (DRM_MODE_FLAG_DBLCLK K) then 2 else 1 in
  let verta :=
    Z.lor (Z.lor
      (VC4_SET_FIELD (crtc_vsync_end mode - crtc_vsync_start mode) (VC4_HDMI_VERTA_VSP K))
      (VC4_SET_FIELD (crtc_vsync_start mode - crtc_vdisplay mode) (VC4_HDMI_VERTA_VFP K)))
      (VC4_SET_FIELD (crtc_vdisplay mode) (VC4_HDMI_VERTA_VAL K)) in
  let vertb :=
    Z.lor (VC4_SET_FIELD 0 (VC4_HDMI_VERTB_VSPO K))
          (VC4_SET_FIELD (crtc_vtotal mode - crtc_vsync_end mode) (VC4_HDMI_VERTB_VBP K)) in
  let vertb_even :=
    Z.lor (VC4_SET_FIELD 0 (VC4_HDMI_VERTB_VSPO K))
          (VC4_SET_FIELD (crtc_vtotal mode - crtc_vsync_end mode - b2z interlaced)
                         (VC4_HDMI_VERTB_VBP K)) in
  HDMI_WRITE HDMI_HORZA
    (Z.lor (Z.lor
       (if vsync_pos then VC4_HDMI_HORZA_VPOS K else 0)
       (if hsync_pos then VC4_HDMI_HORZA_HPOS K else 0))
       (VC4_SET_FIELD (hdisplay mode * pixel_rep) (VC4_HDMI_HORZA_HAP K))) ;;
  HDMI_WRITE HDMI_HORZB
    (Z.lor (Z.lor
       (VC4_SET_FIELD ((htotal mode - hsync_end mode) * pixel_rep) (VC4_HDMI_HORZB_HBP K))
       (VC4_SET_FIELD ((hsync_end mode - hsync_start mode) * pixel_rep) (VC4_HDMI_HORZB_HSP K)))
       (VC4_SET_FIELD ((hsync_start mode - hdisplay mode) * pixel_rep) (VC4_HDMI_HORZB_HFP K))) ;;
  HDMI_WRITE HDMI_VERTA0 verta ;;
  HDMI_WRITE HDMI_VERTA1 verta ;;
  HDMI_WRITE HDMI_VERTB0 vertb_even ;;
  HDMI_WRITE HDMI_VERTB1 vertb ;;
  HDMI_WRITE HDMI_VID_CTL
    (Z.lor (if vsync_pos then 0 else VC4_HD_VID_CTL_VSYNC_LOW K)
           (if hsync_pos then 0 else VC4_HD_VID_CTL_HSYNC_LOW K)).

Definition vc5_hdmi_set_timings (mode : drm_display_mode) : M unit :=
  let hsync_pos := flag_set (flags mode) (DRM_MODE_FLAG_PHSYNC K) in
  let vsync_pos := flag_set (flags mode) (DRM_MODE_FLAG_PVSYNC K) in
  let interlaced := flag_set (flags mode) (DRM_MODE_FLAG_INTERLACE K) in
  let pixel_rep := if flag_set (flags mode) (DRM_MODE_FLAG_DBLCLK K) then 2 else 1 in
  let verta :=
    Z.lor (Z.lor
      (VC4_SET_FIELD (crtc_vsync_end mode - crtc_vsync_start mode) VC5_HDMI_VERTA_VSP)
      (VC4_SET_FIELD (crtc_vsync_start mode - crtc_vdisplay mode) VC5_HDMI_VERTA_VFP))
      (VC4_SET_FIELD (crtc_vdisplay mode) VC5_HDMI_VERTA_VAL) in
  let vertb :=
    Z.lor (VC4_SET_FIELD 0 VC5_HDMI_VERTB_VSPO)
          (VC4_SET_FIELD (crtc_vtotal mode - crtc_vsync_end mode) (VC4_HDMI_VERTB_VBP K)) in
  let vertb_even :=
    Z.lor (VC4_SET_FIELD 0 VC5_HDMI_VERTB_VSPO)
          (VC4_SET_FIELD (crtc_vtotal mode - crtc_vsync_end mode - b2z interlaced)
                         (VC4_HDMI_VERTB_VBP K)) in
  HDMI_WRITE HDMI_VEC_INTERFACE_XBAR 0x354021 ;;
  HDMI_WRITE HDMI_HORZA
    (Z.lor (Z.lor (Z.lor
       (if vsync_pos then VC5_HDMI_HORZA_VPOS else 0)
       (if hsync_pos then VC5_HDMI_HORZA_HPOS else 0))
       (VC4_SET_FIELD (hdisplay mode * pixel_rep) VC5_HDMI_HORZA_HAP))
       (VC4_SET_FIELD ((hsync_start mode - hdisplay mode) * pixel_rep) VC5_HDMI_HORZA_HFP)) ;;
  HDMI_WRITE HDMI_HORZB
    (Z.lor
       (VC4_SET_FIELD ((htotal mode - hsync_end mode) * pixel_rep) VC5_HDMI_HORZB_HBP)
       (VC4_SET_FIELD ((hsync_end mode - hsync_start mode) * pixel_rep) VC5_HDMI_HORZB_HSP)) ;;
  HDMI_WRITE HDMI_VERTA0 verta ;;
  HDMI_WRITE HDMI_VERTA1 verta ;;
  HDMI_WRITE HDMI_VERTB0 vertb_even ;;
  HDMI_WRITE HDMI_VERTB1 vertb ;;
  HDMI_WRITE HDMI_VID_CTL
    (Z.lor (if vsync_pos then 0 else VC4_HD_VID_CTL_VSYNC_LOW K)
           (if hsync_pos then 0 else VC4_HD_VID_CTL_HSYNC_LOW K)) ;;
  HDMI_WRITE HDMI_CLOCK_STOP 0.

(** *** HSM clock and channel map, per variant *)

(** Two's-complement [int], and [unsigned long]. *)
Definition sint32 (x : Z) : Z := (x + 2 ^ 31) mod 2 ^ 32 - 2 ^ 31.
Definition ulong (x : Z) : Z := wrap (BITS_PER_LONG K) x.

Definition vc4_hdmi_get_hsm_clock : M Z :=
  r <- clk_get_rate HSM_CLOCK ;; ret (wrap32 r).

Definition vc5_hdmi_get_hsm_clock : M Z := ret 108000000.

Definition vc4_hdmi_calc_hsm_clock (pixel_rate : Z) : Z :=
  (* This is the rate that is set by the firmware. *)
  wrap32 VC4_HSM_CLOCK.

(** max_t(unsigned long, 108000000, (pixel_rate / 100) * 101), returned
    as a [u32]. *)
Definition vc5_hdmi_calc_hsm_clock (pixel_rate : Z) : Z :=
  wrap32 (Z.max (ulong 108000000) (ulong ((pixel_rate / 100) * 101))).

(** The loop [for (i = 0; i < 8; i++)] of the channel-map builders, with
    [bits] the number of bits per slot. *)
Fixpoint channel_map_loop (bits : Z) (channel_mask : Z) (n : nat) (i : Z)
         (channel_map : Z) : Z :=
  match n with
  | O => channel_map
  | S n' =>
      let channel_map' :=
        if negb (Z.land channel_mask (BIT i) =? 0)
        then wrap32 (Z.lor channel_map (Z.shiftl i (bits * i)))
        else channel_map in
      channel_map_loop bits channel_mask n' (i + 1) channel_map'
  end.

Definition vc4_hdmi_channel_map (channel_mask : Z) : Z :=
  channel_map_loop 3 channel_mask 8 0 0.

Definition vc5_hdmi_channel_map (channel_mask : Z) : Z :=
  channel_map_loop 4 channel_mask 8 0 0.

(** *** struct vc4_hdmi_variant: the per-generation function table *)

Record vc4_hdmi_variant : Type := mk_variant {
  max_pixel_clock : Z;
  csc_setup : option (bool -> M unit);
  reset : option (M unit);
  set_timings : option (drm_display_mode -> M unit);
  phy_init : option (drm_display_mode -> M unit);
  phy_disable : option (M unit);
  phy_rng_enable : option (M unit);
  phy_rng_disable : option (M unit);
  get_hsm_clock : M Z;
  calc_hsm_clock : Z -> Z;
  channel_map : Z -> Z
}.

Definition bcm2835_variant : vc4_hdmi_variant :=
  {| max_pixel_clock := 162000000;
     csc_setup := Some vc4_hdmi_csc_setup;
     reset := Some vc4_hdmi_reset;
     set_timings := Some vc4_hdmi_set_timings;
     phy_init := Some (fun _ => emit (EvHook PHY_INIT));
     phy_disable := Some (emit (EvHook PHY_DISABLE));
     phy_rng_enable := Some (emit (EvHook PHY_RNG_ENABLE));
     phy_rng_disable := Some (emit (EvHook PHY_RNG_DISABLE));
     get_hsm_clock := vc4_hdmi_get_hsm_clock;
     calc_hsm_clock := vc4_hdmi_calc_hsm_clock;
     channel_map := vc4_hdmi_channel_map |}.

(** bcm2711_hdmi0_variant and bcm2711_hdmi1_variant: they differ in the
    register table and the lane mapping only. *)
Definition bcm2711_variant : vc4_hdmi_variant :=
  {| max_pixel_clock := 297000000;
     csc_setup := Some vc5_hdmi_csc_setup;
     reset := Some vc5_hdmi_reset;
     set_timings := Some vc5_hdmi_set_timings;
     phy_init := Some (fun _ => emit (EvHook PHY_INIT));
     phy_disable := None;
     phy_rng_enable := Some (emit (EvHook PHY_RNG_ENABLE));
     phy_rng_disable := Some (emit (EvHook PHY_RNG_DISABLE));
     get_hsm_clock := vc5_hdmi_get_hsm_clock;
     calc_hsm_clock := vc5_hdmi_calc_hsm_clock;
     channel_map := vc5_hdmi_channel_map |}.

Variable variant : vc4_hdmi_variant.

(** [if (variant->hook) variant->hook(...)] *)
Definition call_hook (h : option (M unit)) : M unit :=
  match h with Some f => f | None => ret tt end.

(** *** Audio clocks *)

Definition vc4_hdmi_audio_set_mai_clock : M unit :=
  hsm_clock <- get_hsm_clock variant ;;
  a <- get_audio ;;
  let nm := rational_best_approximation e hsm_clock (audio_samplerate a)
              (Z.shiftr (f_mask (VC4_HD_MAI_SMP_N K)) (f_shift (VC4_HD_MAI_SMP_N K)))
              (Z.shiftr (f_mask (VC4_HD_MAI_SMP_M K)) (f_shift (VC4_HD_MAI_SMP_M K)) + 1) in
  HDMI_WRITE HDMI_MAI_SMP
    (Z.lor (VC4_SET_FIELD (fst nm) (VC4_HD_MAI_SMP_N K))
           (VC4_SET_FIELD (snd nm - 1) (VC4_HD_MAI_SMP_M K))).

(** [vc4_hdmi_set_n_cts], with [mode] the adjusted mode of the CRTC.
    [n] and the divisor are [u32], [tmp] is a [u64]; [do_div] by zero is
    undefined in C and yields 0 here. *)
Definition n_of_samplerate (samplerate : Z) : Z :=
  wrap32 (wrap32 (128 * samplerate) / 1000).

Definition cts_of (mode_clock samplerate : Z) : Z :=
  let n := n_of_samplerate samplerate in
  let tmp := wrap64 (wrap64 (sint32 (mode_clock * 1000)) * n) in
  let tmp := tmp / wrap32 (128 * samplerate) in
  wrap32 tmp.

Definition vc4_hdmi_set_n_cts (mode : drm_display_mode) : M unit :=
  a <- get_audio ;;
  let samplerate := wrap32 (audio_samplerate a) in
  let n := n_of_samplerate samplerate in
  let cts := cts_of (clock mode) samplerate in
  HDMI_WRITE HDMI_CRP_CFG
    (Z.lor (VC4_HDMI_CRP_CFG_EXTERNAL_CTS_EN K)
           (VC4_SET_FIELD n (VC4_HDMI_CRP_CFG_N K))) ;;
  HDMI_WRITE HDMI_CTS_0 cts ;;
  HDMI_WRITE HDMI_CTS_1 cts.

Definition sample_rate_to_mai_fmt (samplerate : Z) : mai_sample_rate_t :=
  if samplerate =? 8000 then VC4_HDMI_MAI_SAMPLE_RATE_8000
  else if samplerate =? 11025 then VC4_HDMI_MAI_SAMPLE_RATE_11025
  else if samplerate =? 12000 then VC4_HDMI_MAI_SAMPLE_RATE_12000
  else if samplerate =? 16000 then VC4_HDMI_MAI_SAMPLE_RATE_16000
  else if samplerate =? 22050 then VC4_HDMI_MAI_SAMPLE_RATE_22050
  else if samplerate =? 24000 then VC4_HDMI_MAI_SAMPLE_RATE_24000
  else if samplerate =? 32000 then VC4_HDMI_MAI_SAMPLE_RATE_32000
  else if samplerate =? 44100 then VC4_HDMI_MAI_SAMPLE_RATE_44100
  else if samplerate =? 48000 then VC4_HDMI_MAI_SAMPLE_RATE_48000
  else if samplerate =? 64000 then VC4_HDMI_MAI_SAMPLE_RATE_64000
  else if samplerate =? 88200 then VC4_HDMI_MAI_SAMPLE_RATE_88200
  else if samplerate =? 96000 then VC4_HDMI_MAI_SAMPLE_RATE_96000
  else if samplerate =? 128000 then VC4_HDMI_MAI_SAMPLE_RATE_128000
  else if samplerate =? 176400 then VC4_HDMI_MAI_SAMPLE_RATE_176400
  else if samplerate =? 192000 then VC4_HDMI_MAI_SAMPLE_RATE_192000
  else VC4_HDMI_MAI_SAMPLE_RATE_NOT_INDICATED.

(** GENMASK(h, l) of linux/bits.h, on [unsigned long]. *)
Definition GENMASK (h l : Z) : Z :=
  Z.land (ulong (ulong (Z.lnot 0) - Z.shiftl 1 l + 1))
         (Z.shiftr (ulong (Z.lnot 0)) (BITS_PER_LONG K - 1 - h)).

(** *** Audio stream callbacks *)

Definition update_audio (f : vc4_hdmi_audio -> vc4_hdmi_audio) : M unit :=
  a <- get_audio ;; set_audio (f a).

(** [vc4_hdmi_audio_startup]: [stream] is the substream of the call,
    [has_crtc] is [encoder->crtc != NULL] and [spk_alloc] the speaker
    allocation of the connector's ELD at the time of the call. *)
Definition vc4_hdmi_audio_startup (stream : nat) (has_crtc : bool) (spk_alloc : Z) : M Z :=
  a <- get_audio ;;
  if match substream a with Some s0 => negb (Nat.eqb s0 stream) | None => false end
  then ret (- EINVAL)
  else
    update_audio (fun a => mk_audio (audio_channels a) (audio_samplerate a)
                     (iec_status0 a) (streaming a) (chmap a) (chmap_idx a)
                     (max_channels a) (Some stream)) ;;
    (* If the HDMI encoder hasn't probed, or the encoder is currently in
       DVI mode, treat the codec dai as missing. *)
    cfg <- HDMI_READ HDMI_RAM_PACKET_CONFIG ;;
    if negb has_crtc || (Z.land cfg (VC4_HDMI_RAM_PACKET_ENABLE K) =? 0)
    then ret (- ENODEV)
    else
      let r := snd_pcm_hw_constraint_eld_ret e in
      if negb (r =? 0) then ret r
      else
        (* Select chmap supported *)
        update_audio (fun a => mk_audio (audio_channels a) (audio_samplerate a)
                         (iec_status0 a) (streaming a)
                         (hdmi_codec_eld_chmap spk_alloc) (chmap_idx a)
                         8 (substream a)) ;;
        ret 0.

(** The MAI format choice of [vc4_hdmi_audio_prepare]. *)
Definition mai_audio_format_of (iec0 nchannels : Z) : mai_audio_format_t :=
  if negb (Z.land iec0 (IEC958_AES0_NONAUDIO K) =? 0) && (nchannels =? 8)
  then VC4_HDMI_MAI_FORMAT_HBR
  else VC4_HDMI_MAI_FORMAT_PCM.

(** [vc4_hdmi_audio_prepare]: [runtime_channels] and [runtime_rate] are
    [substream->runtime->channels] and [->rate]. *)
Definition vc4_hdmi_audio_prepare (stream : nat) (runtime_channels runtime_rate : Z)
           (spk_alloc : Z) (mode : drm_display_mode) : M Z :=
  a <- get_audio ;;
  if match substream a with Some s0 => negb (Nat.eqb s0 stream) | None => true end
  then ret (- EINVAL)
  else
    update_audio (fun a => mk_audio runtime_channels runtime_rate
                     (iec_status0 a) (streaming a) (chmap a) (chmap_idx a)
                     (max_channels a) (substream a)) ;;
    HDMI_WRITE HDMI_MAI_CTL
      (Z.lor (Z.lor (Z.lor (Z.lor
         (VC4_HD_MAI_CTL_RESET K) (VC4_HD_MAI_CTL_FLUSH K)) (VC4_HD_MAI_CTL_DLATE K))
         (VC4_HD_MAI_CTL_ERRORE K)) (VC4_HD_MAI_CTL_ERRORF K)) ;;
    vc4_hdmi_audio_set_mai_clock ;;
    a <- get_audio ;;
    let mai_sample_rate := sample_rate_to_mai_fmt (audio_samplerate a) in
    let mai_audio_format := mai_audio_format_of (iec_status0 a) (audio_channels a) in
    HDMI_WRITE HDMI_MAI_FMT
      (Z.lor (VC4_SET_FIELD (mai_sample_rate_code K mai_sample_rate)
                            (VC4_HDMI_MAI_FORMAT_SAMPLE_RATE K))
             (VC4_SET_FIELD (mai_audio_format_code K mai_audio_format)
                            (VC4_HDMI_MAI_FORMAT_AUDIO_FORMAT K))) ;;
    (* The B frame identifier should match the value used by alsa-lib (8) *)
    let audio_packet_config :=
      Z.lor (Z.lor (VC4_HDMI_AUDIO_PACKET_ZERO_DATA_ON_SAMPLE_FLAT K)
                   (VC4_HDMI_AUDIO_PACKET_ZERO_DATA_ON_INACTIVE_CHANNELS K))
            (VC4_SET_FIELD 0x8 (VC4_HDMI_AUDIO_PACKET_B_FRAME_IDENTIFIER K)) in
    let channel_mask := wrap32 (GENMASK (audio_channels a - 1) 0) in
    let audio_packet_config :=
      Z.lor audio_packet_config
            (VC4_SET_FIELD channel_mask (VC4_HDMI_AUDIO_PACKET_CEA_MASK K)) in
    (* Set the MAI threshold *)
    HDMI_WRITE HDMI_MAI_THR
      (Z.lor (Z.lor (Z.lor
         (VC4_SET_FIELD 0x10 (VC4_HD_MAI_THR_PANICHIGH K))
         (VC4_SET_FIELD 0x10 (VC4_HD_MAI_THR_PANICLOW K)))
         (VC4_SET_FIELD 0x10 (VC4_HD_MAI_THR_DREQHIGH K)))
         (VC4_SET_FIELD 0x10 (VC4_HD_MAI_THR_DREQLOW K))) ;;
    HDMI_WRITE HDMI_MAI_CONFIG
      (Z.lor (Z.lor (VC4_HDMI_MAI_CONFIG_BIT_REVERSE K)
                    (VC4_HDMI_MAI_CONFIG_FORMAT_REVERSE K))
             (VC4_SET_FIELD channel_mask (VC4_HDMI_MAI_CHANNEL_MASK K))) ;;
    HDMI_WRITE HDMI_MAI_CHANNEL_MAP (channel_map variant channel_mask) ;;
    HDMI_WRITE HDMI_AUDIO_PACKET_CONFIG audio_packet_config ;;
    vc4_hdmi_set_n_cts mode ;;
    let idx := hdmi_codec_get_ch_alloc_table_idx spk_alloc (wrap8 (audio_channels a)) in
    (if idx <? 0 then
       emit (EvError "Not able to map channels to speakers") ;;
       update_audio (fun a => mk_audio (audio_channels a) (audio_samplerate a)
                        (iec_status0 a) (streaming a) (chmap a)
                        HDMI_CODEC_CHMAP_IDX_UNKNOWN
                        (max_channels a) (substream a))
     else
       update_audio (fun a => mk_audio (audio_channels a) (audio_samplerate a)
                        (iec_status0 a) (streaming a) (chmap a)
                        (ca_id (nth (Z.to_nat idx) hdmi_codec_channel_alloc
                                    (mk_spk_alloc 0 0 0)))
                        (max_channels a) (substream a))) ;;
    ret 0.

(** *** The channel-map control *)

(** An array element by index, when the index is inside the array. *)
Definition array_at {A} (arr : list A) (idx : Z) : option A :=
  if (0 <=? idx) && (idx <? Z.of_nat (List.length arr))
  then nth_error arr (Z.to_nat idx) else None.

(** What [vc4_chmap_ctl_get] does: its return value, the index it applies
    to the table [audio.chmap] when it forms [map] (if it gets there), and
    the values it stores; a value read outside the table is [None]. *)
Record chmap_ctl_result : Type := mk_ctl_result {
  ctl_ret : Z;
  ctl_lookup : option Z;
  ctl_values : list (option snd_chmap)
}.

Definition vc4_chmap_ctl_get (a : vc4_hdmi_audio) : chmap_ctl_result :=
  match chmap a with
  | CHMAP_NULL => mk_ctl_result (- EINVAL) None []
  | tbl =>
      (* map = vc4_hdmi->audio.chmap[vc4_hdmi->audio.chmap_idx].map; *)
      let idx := chmap_idx a in
      let map_i (i : nat) : option snd_chmap :=
        match array_at (chmap_table tbl) idx with
        | Some el => nth_error (elem_map el) i
        | None => None
        end in
      let value (i : nat) : option snd_chmap :=
        if idx =? HDMI_CODEC_CHMAP_IDX_UNKNOWN
        then Some SNDRV_CHMAP_UNKNOWN
        else map_i i in
      mk_ctl_result 0 (Some idx)
        (List.map value (seq 0 (Z.to_nat (max_channels a))))
  end.

(** The index [idx] lies inside the table that [audio.chmap] points to. *)
Definition chmap_index_in_bounds (p : chmap_ptr) (idx : Z) : Prop :=
  0 <= idx < Z.of_nat (List.length (chmap_table p)).

(** *** Infoframe packet engine *)

Fixpoint emit_list (evs : list event) : M unit :=
  match evs with
  | [] => ret tt
  | ev :: rest => emit ev ;; emit_list rest
  end.

Definition vc4_hdmi_stop_packet (type : Z) : M Z :=
  let packet_id := wrap32 (type - 0x80) in
  cfg <- HDMI_READ HDMI_RAM_PACKET_CONFIG ;;
  HDMI_WRITE HDMI_RAM_PACKET_CONFIG (Z.land cfg (Z.lnot (BIT packet_id))) ;;
  wait_for (WAIT_PACKET_IDLE packet_id).

(** [buffer[j]]: a byte of the local buffer; the model reads 0 outside it. *)
Definition buffer_at (buffer : list Z) (j : Z) : Z :=
  match array_at buffer j with Some b => b | None => 0 end.

(** The copy loop [for (i = 0; i < len; i += 7)] of
    [vc4_hdmi_write_infoframe], from [i] on: the indices of [buffer] it
    reads and the words it writes, in order. *)
Fixpoint infoframe_copy_loop (fuel : nat) (buffer : list Z) (len i packet_reg : Z)
  : list Z * list event :=
  match fuel with
  | O => ([], [])
  | S fuel' =>
      if i <? len then
        let w1 := Z.lor (Z.lor (Z.shiftl (buffer_at buffer (i + 0)) 0)
                               (Z.shiftl (buffer_at buffer (i + 1)) 8))
                        (Z.shiftl (buffer_at buffer (i + 2)) 16) in
        let w2 := Z.lor (Z.lor (Z.lor (Z.shiftl (buffer_at buffer (i + 3)) 0)
                                      (Z.shiftl (buffer_at buffer (i + 4)) 8))
                               (Z.shiftl (buffer_at buffer (i + 5)) 16))
                        (Z.shiftl (buffer_at buffer (i + 6)) 24) in
        let rest := infoframe_copy_loop fuel' buffer len (i + 7) (packet_reg + 8) in
        ([i + 0; i + 1; i + 2; i + 3; i + 4; i + 5; i + 6] ++ fst rest,
         EvWritel (wrap32 packet_reg) (wrap32 w1)
           :: EvWritel (wrap32 (packet_reg + 4)) (wrap32 w2) :: snd rest)
      else ([], [])
  end.

(** The whole loop: [len] iterations are never needed. *)
Definition infoframe_copy (buffer : list Z) (len packet_reg : Z) : list Z * list event :=
  infoframe_copy_loop (Z.to_nat len) buffer len 0 packet_reg.

(** The buffer indices the copy loop reads for a packed length [len]. *)
Definition infoframe_buffer_reads (len : Z) : list Z :=
  fst (infoframe_copy [] len 0).

Definition vc4_hdmi_write_infoframe (frame : hdmi_infoframe) : M unit :=
  let packet_id := wrap32 (any_type frame - 0x80) in
  let packet_reg := wrap32 (HDMI_RAM_PACKET_START_offset K
                            + VC4_HDMI_PACKET_STRIDE K * packet_id) in
  cfg <- HDMI_READ HDMI_RAM_PACKET_CONFIG ;;
  when (Z.land cfg (VC4_HDMI_RAM_PACKET_ENABLE K) =? 0)
       (emit (EvWarn "Packet RAM has to be on to store the packet.")) ;;
  let packed := hdmi_infoframe_pack e frame in
  let len := fst packed in
  let buffer := snd packed in
  if len <? 0 then ret tt
  else
    r <- vc4_hdmi_stop_packet (any_type frame) ;;
    if negb (r =? 0) then
      emit (EvError "Failed to wait for infoframe to go idle")
    else
      emit_list (snd (infoframe_copy buffer len packet_reg)) ;;
      cfg <- HDMI_READ HDMI_RAM_PACKET_CONFIG ;;
      HDMI_WRITE HDMI_RAM_PACKET_CONFIG (Z.lor cfg (BIT packet_id)) ;;
      r <- wait_for (WAIT_PACKET_ACTIVE packet_id) ;;
      when (negb (r =? 0))
           (emit (EvError "Failed to wait for infoframe to start")).

Definition get_limited_rgb_range : M bool := fun s => (limited_rgb_range s, s).

(** The bars that [vc4_hdmi_set_avi_infoframe] copies from the connector's
    TV margins belong to the frame that the environment packs. *)
Definition vc4_hdmi_set_avi_infoframe : M unit :=
  let r := avi_infoframe_from_display_mode_ret e in
  if r <? 0 then emit (EvError "couldn't fill AVI infoframe")
  else
    limited <- get_limited_rgb_range ;;
    vc4_hdmi_write_infoframe (AVI_INFOFRAME limited).

Definition vc4_hdmi_set_spd_infoframe : M unit :=
  let r := spd_infoframe_init_ret e in
  if r <? 0 then emit (EvError "couldn't fill SPD infoframe")
  else vc4_hdmi_write_infoframe SPD_INFOFRAME.

Definition vc4_hdmi_set_audio_infoframe : M unit :=
  a <- get_audio ;;
  (* Select a channel allocation that matches with ELD and pcm channels *)
  vc4_hdmi_write_infoframe (AUDIO_INFOFRAME (audio_channels a) (chmap_idx a)).

Definition vc4_hdmi_set_infoframes : M unit :=
  vc4_hdmi_set_avi_infoframe ;;
  vc4_hdmi_set_spd_infoframe ;;
  (* If audio was streaming, then we need to reenabled the audio
     infoframe here during encoder_enable. *)
  a <- get_audio ;;
  when (streaming a) vc4_hdmi_set_audio_infoframe.

(** *** Encoder disable and enable *)

Definition vc4_hdmi_encoder_disable : M unit :=
  HDMI_WRITE HDMI_RAM_PACKET_CONFIG 0 ;;
  call_hook (phy_disable variant) ;;
  vid <- HDMI_READ HDMI_VID_CTL ;;
  HDMI_WRITE HDMI_VID_CTL (Z.land vid (Z.lnot (VC4_HD_VID_CTL_ENABLE K))) ;;
  clk_disable_unprepare HSM_CLOCK ;;
  clk_disable_unprepare PIXEL_CLOCK ;;
  r <- pm_runtime_put ;;
  when (r <? 0) (emit (EvError "Failed to release power domain")).

(** The FIFO recenter pulse that ends the HDMI branch of
    [vc4_hdmi_encoder_enable]. *)
Definition fifo_recenter : M unit :=
  fifo <- HDMI_READ HDMI_FIFO_CTL ;;
  let drift := Z.land fifo (VC4_HDMI_FIFO_VALID_WRITE_MASK K) in
  HDMI_WRITE HDMI_FIFO_CTL (Z.land drift (Z.lnot (VC4_HDMI_FIFO_CTL_RECENTER K))) ;;
  HDMI_WRITE HDMI_FIFO_CTL (Z.lor drift (VC4_HDMI_FIFO_CTL_RECENTER K)) ;;
  emit EvSleep ;;
  HDMI_WRITE HDMI_FIFO_CTL (Z.land drift (Z.lnot (VC4_HDMI_FIFO_CTL_RECENTER K))) ;;
  HDMI_WRITE HDMI_FIFO_CTL (Z.lor drift (VC4_HDMI_FIFO_CTL_RECENTER K)) ;;
  r <- wait_for WAIT_RECENTER_DONE ;;
  when (negb (r =? 0))
       (emit (EvWarn "Timeout waiting for VC4_HDMI_FIFO_CTL_RECENTER_DONE")).

(** The part of [vc4_hdmi_encoder_enable] that follows the clock setup. *)
Definition encoder_enable_link (mode : drm_display_mode) : M unit :=
  call_hook (reset variant) ;;
  match phy_init variant with Some f => f mode | None => ret tt end ;;
  HDMI_WRITE HDMI_VID_CTL 0 ;;
  sched <- HDMI_READ HDMI_SCHEDULER_CONTROL ;;
  HDMI_WRITE HDMI_SCHEDULER_CONTROL
    (Z.lor (Z.lor sched (VC4_HDMI_SCHEDULER_CONTROL_MANUAL_FORMAT K))
           (VC4_HDMI_SCHEDULER_CONTROL_IGNORE_VSYNC_PREDICTS K)) ;;
  match set_timings variant with Some f => f mode | None => ret tt end ;;
  monitor <- get_hdmi_monitor ;;
  (if monitor && default_rgb_quant_range_limited e mode then
     match csc_setup variant with Some f => f true | None => ret tt end ;;
     set_limited_rgb_range true
   else
     match csc_setup variant with Some f => f false | None => ret tt end ;;
     set_limited_rgb_range false) ;;
  HDMI_WRITE HDMI_FIFO_CTL (VC4_HDMI_FIFO_CTL_MASTER_SLAVE_N K) ;;
  vid <- HDMI_READ HDMI_VID_CTL ;;
  HDMI_WRITE HDMI_VID_CTL
    (Z.lor (Z.lor (Z.lor vid (VC4_HD_VID_CTL_ENABLE K))
                  (VC4_HD_VID_CTL_UNDERFLOW_ENABLE K))
           (VC4_HD_VID_CTL_FRAME_COUNTER_RESET K)) ;;
  (if monitor then
     sched <- HDMI_READ HDMI_SCHEDULER_CONTROL ;;
     HDMI_WRITE HDMI_SCHEDULER_CONTROL
       (Z.lor sched (VC4_HDMI_SCHEDULER_CONTROL_MODE_HDMI K)) ;;
     r <- wait_for WAIT_HDMI_ACTIVE ;;
     when (negb (r =? 0))
          (emit (EvWarn "Timeout waiting for VC4_HDMI_SCHEDULER_CONTROL_HDMI_ACTIVE"))
   else
     cfg <- HDMI_READ HDMI_RAM_PACKET_CONFIG ;;
     HDMI_WRITE HDMI_RAM_PACKET_CONFIG
       (Z.land cfg (Z.lnot (VC4_HDMI_RAM_PACKET_ENABLE K))) ;;
     sched <- HDMI_READ HDMI_SCHEDULER_CONTROL ;;
     HDMI_WRITE HDMI_SCHEDULER_CONTROL
       (Z.land sched (Z.lnot (VC4_HDMI_SCHEDULER_CONTROL_MODE_HDMI K))) ;;
     r <- wait_for WAIT_HDMI_INACTIVE ;;
     when (negb (r =? 0))
          (emit (EvWarn "Timeout waiting for !VC4_HDMI_SCHEDULER_CONTROL_HDMI_ACTIVE"))) ;;
  when monitor
    (sched <- HDMI_READ HDMI_SCHEDULER_CONTROL ;;
     when (Z.land sched (VC4_HDMI_SCHEDULER_CONTROL_HDMI_ACTIVE K) =? 0)
          (emit (EvWarn "WARN_ON: HDMI_ACTIVE is not set in HDMI_SCHEDULER_CONTROL")) ;;
     sched <- HDMI_READ HDMI_SCHEDULER_CONTROL ;;
     HDMI_WRITE HDMI_SCHEDULER_CONTROL
       (Z.lor sched (VC4_HDMI_SCHEDULER_CONTROL_VERT_ALWAYS_KEEPOUT K)) ;;
     HDMI_WRITE HDMI_RAM_PACKET_CONFIG (VC4_HDMI_RAM_PACKET_ENABLE K) ;;
     vc4_hdmi_set_infoframes ;;
     fifo_recenter).

Definition vc4_hdmi_encoder_enable (mode : drm_display_mode) : M unit :=
  r <- pm_runtime_get_sync ;;
  if r <? 0 then emit (EvError "Failed to retain power domain")
  else
    let pixel_rate :=
      ulong (sint32 (clock mode * 1000
                     * (if flag_set (flags mode) (DRM_MODE_FLAG_DBLCLK K) then 2 else 1))) in
    r <- clk_set_rate PIXEL_CLOCK pixel_rate ;;
    if negb (r =? 0) then emit (EvError "Failed to set pixel clock rate")
    else
      r <- clk_prepare_enable PIXEL_CLOCK ;;
      if negb (r =? 0) then emit (EvError "Failed to turn on pixel clock")
      else
        let hsm_rate := calc_hsm_clock variant pixel_rate in
        r <- clk_set_rate HSM_CLOCK hsm_rate ;;
        if negb (r =? 0) then emit (EvError "Failed to set HSM clock rate")
        else
          r <- clk_prepare_enable HSM_CLOCK ;;
          if negb (r =? 0) then
            emit (EvError "Failed to turn on HSM clock") ;;
            clk_disable_unprepare PIXEL_CLOCK
          else
            encoder_enable_link mode.

End Driver.

(** ** A concrete platform, for runs of the model

    A valuation of the header constants, the one of the kernel tree's
    headers (vc4_regs.h, vc4_hdmi.h, drm_mode.h, asoundef.h) on a 32-bit
    platform, an environment in which every call succeeds, and a 1080p60
    mode.  The general statements quantify over every valuation and
    environment; these serve the concrete runs. *)

Module Sample.

Definition fld (high low : Z) : field := mk_field low (VC4_MASK high low).

Definition K : header_consts :=
  {| BITS_PER_LONG := 32;
     VC4_HDMI_PACKET_STRIDE := 0x24;
     HDMI_RAM_PACKET_START_offset := 0x400;
     DRM_MODE_FLAG_PHSYNC := BIT 0;
     DRM_MODE_FLAG_PVSYNC := BIT 2;
     DRM_MODE_FLAG_INTERLACE := BIT 4;
     DRM_MODE_FLAG_DBLCLK := BIT 12;
     IEC958_AES0_NONAUDIO := BIT 1;
     VC4_HDMI_RAM_PACKET_ENABLE := BIT 16;
     VC4_HD_VID_CTL_ENABLE := BIT 31;
     VC4_HD_VID_CTL_UNDERFLOW_ENABLE := BIT 30;
     VC4_HD_VID_CTL_FRAME_COUNTER_RESET := BIT 29;
     VC4_HD_VID_CTL_VSYNC_LOW := BIT 28;
     VC4_HD_VID_CTL_HSYNC_LOW := BIT 27;
     VC4_HDMI_SCHEDULER_CONTROL_MANUAL_FORMAT := BIT 15;
     VC4_HDMI_SCHEDULER_CONTROL_IGNORE_VSYNC_PREDICTS := BIT 5;
     VC4_HDMI_SCHEDULER_CONTROL_VERT_ALWAYS_KEEPOUT := BIT 3;
     VC4_HDMI_SCHEDULER_CONTROL_HDMI_ACTIVE := BIT 1;
     VC4_HDMI_SCHEDULER_CONTROL_MODE_HDMI := BIT 0;
     VC4_HDMI_FIFO_CTL_MASTER_SLAVE_N := BIT 0;
     VC4_HDMI_FIFO_VALID_WRITE_MASK := 0xefff;
     VC4_HDMI_FIFO_CTL_RECENTER := BIT 6;
     VC4_HDMI_FIFO_CTL_RECENTER_DONE := BIT 14;
     VC4_HDMI_SW_RESET_HDMI := BIT 0;
     VC4_HDMI_SW_RESET_FORMAT_DETECT := BIT 1;
     VC4_HD_CSC_CTL_ORDER := fld 7 5;
     VC4_HD_CSC_CTL_ORDER_BGR := 1;
     VC4_HD_CSC_CTL_ENABLE := BIT 0;
     VC4_HD_CSC_CTL_RGB2YCC := BIT 1;
     VC4_HD_CSC_CTL_MODE := fld 3 2;
     VC4_HD_CSC_CTL_MODE_CUSTOM := 3;
     VC4_HDMI_HORZA_VPOS := BIT 14;
     VC4_HDMI_HORZA_HPOS := BIT 13;
     VC4_HDMI_HORZA_HAP := fld 12 0;
     VC4_HDMI_HORZB_HBP := fld 29 20;
     VC4_HDMI_HORZB_HSP := fld 19 10;
     VC4_HDMI_HORZB_HFP := fld 9 0;
     VC4_HDMI_VERTA_VSP := fld 24 20;
     VC4_HDMI_VERTA_VFP := fld 19 13;
     VC4_HDMI_VERTA_VAL := fld 12 0;
     VC4_HDMI_VERTB_VSPO := fld 21 9;
     VC4_HDMI_VERTB_VBP := fld 8 0;
     VC4_HD_MAI_CTL_RESET := BIT 0;
     VC4_HD_MAI_CTL_FLUSH := BIT 9;
     VC4_HD_MAI_CTL_DLATE := BIT 15;
     VC4_HD_MAI_CTL_ERRORE := BIT 2;
     VC4_HD_MAI_CTL_ERRORF := BIT 1;
     VC4_HD_MAI_SMP_N := fld 31 8;
     VC4_HD_MAI_SMP_M := fld 7 0;
     VC4_HDMI_MAI_FORMAT_SAMPLE_RATE := fld 15 8;
     VC4_HDMI_MAI_FORMAT_AUDIO_FORMAT := fld 23 16;
     mai_audio_format_code := fun f =>
       match f with
       | VC4_HDMI_MAI_FORMAT_PCM => 2
       | VC4_HDMI_MAI_FORMAT_HBR => 200
       end;
     mai_sample_rate_code := fun r =>
       match r with
       | VC4_HDMI_MAI_SAMPLE_RATE_NOT_INDICATED => 0
       | VC4_HDMI_MAI_SAMPLE_RATE_8000 => 1
       | VC4_HDMI_MAI_SAMPLE_RATE_11025 => 2
       | VC4_HDMI_MAI_SAMPLE_RATE_12000 => 3
       | VC4_HDMI_MAI_SAMPLE_RATE_16000 => 4
       | VC4_HDMI_MAI_SAMPLE_RATE_22050 => 5
       | VC4_HDMI_MAI_SAMPLE_RATE_24000 => 6
       | VC4_HDMI_MAI_SAMPLE_RATE_32000 => 7
       | VC4_HDMI_MAI_SAMPLE_RATE_44100 => 8
       | VC4_HDMI_MAI_SAMPLE_RATE_48000 => 9
       | VC4_HDMI_MAI_SAMPLE_RATE_64000 => 10
       | VC4_HDMI_MAI_SAMPLE_RATE_88200 => 11
       | VC4_HDMI_MAI_SAMPLE_RATE_96000 => 12
       | VC4_HDMI_MAI_SAMPLE_RATE_128000 => 13
       | VC4_HDMI_MAI_SAMPLE_RATE_176400 => 14
       | VC4_HDMI_MAI_SAMPLE_RATE_192000 => 15
       end;
     VC4_HDMI_AUDIO_PACKET_ZERO_DATA_ON_SAMPLE_FLAT := BIT 29;
     VC4_HDMI_AUDIO_PACKET_ZERO_DATA_ON_INACTIVE_CHANNELS := BIT 24;
     VC4_HDMI_AUDIO_PACKET_B_FRAME_IDENTIFIER := fld 13 10;
     VC4_HDMI_AUDIO_PACKET_CEA_MASK := fld 7 0;
     VC4_HD_MAI_THR_PANICHIGH := fld 29 24;
     VC4_HD_MAI_THR_PANICLOW := fld 21 16;
     VC4_HD_MAI_THR_DREQHIGH := fld 13 8;
     VC4_HD_MAI_THR_DREQLOW := fld 5 0;
     VC4_HDMI_MAI_CONFIG_BIT_REVERSE := BIT 26;
     VC4_HDMI_MAI_CONFIG_FORMAT_REVERSE := BIT 27;
     VC4_HDMI_MAI_CHANNEL_MASK := fld 15 0;
     VC4_HDMI_CRP_CFG_EXTERNAL_CTS_EN := BIT 24;
     VC4_HDMI_CRP_CFG_N := fld 19 0 |}.

(** A packed frame: type, version, length, then a zero payload; the
    length returned is the 4-byte header plus the payload. *)
Definition pack (f : hdmi_infoframe) : Z * list Z :=
  let payload := match f with
                 | AVI_INFOFRAME _ => 13
                 | SPD_INFOFRAME => 25
                 | AUDIO_INFOFRAME _ _ => 10
                 end in
  (4 + payload, [any_type f; 1; payload] ++ repeat 0 33).

(** Every call succeeds, every poll sees its condition, and a register
    reads back as written (with the status bit of the scheduler). *)
Definition env : kernel_env :=
  {| pm_runtime_get_sync_ret := 0;
     pm_runtime_put_ret := 0;
     clk_set_rate_ret := fun _ => 0;
     clk_prepare_enable_ret := fun _ => 0;
     wait_for_ret := fun _ => 0;
     hw_read := fun r v =>
       match r with
       | HDMI_SCHEDULER_CONTROL =>
           (* the hardware raises HDMI_ACTIVE once MODE_HDMI is set *)
           if Z.testbit v 0 then Z.lor v (BIT 1) else v
       | _ => v
       end;
     avi_infoframe_from_display_mode_ret := 0;
     spd_infoframe_init_ret := 0;
     hdmi_infoframe_pack := pack;
     default_rgb_quant_range_limited := fun _ => true;
     snd_pcm_hw_constraint_eld_ret := 0;
     rational_best_approximation := fun num den _ _ => (num / den, 1) |}.

(** The same, with one answer changed. *)
Definition with_clk_set_rate (f : clk_id -> Z) (e : kernel_env) : kernel_env :=
  mk_env (pm_runtime_get_sync_ret e) (pm_runtime_put_ret e) f
         (clk_prepare_enable_ret e) (wait_for_ret e) (hw_read e)
         (avi_infoframe_from_display_mode_ret e) (spd_infoframe_init_ret e)
         (hdmi_infoframe_pack e) (default_rgb_quant_range_limited e)
         (snd_pcm_hw_constraint_eld_ret e) (rational_best_approximation e).

Definition with_wait_for (f : wait_site -> Z) (e : kernel_env) : kernel_env :=
  mk_env (pm_runtime_get_sync_ret e) (pm_runtime_put_ret e) (clk_set_rate_ret e)
         (clk_prepare_enable_ret e) f (hw_read e)
         (avi_infoframe_from_display_mode_ret e) (spd_infoframe_init_ret e)
         (hdmi_infoframe_pack e) (default_rgb_quant_range_limited e)
         (snd_pcm_hw_constraint_eld_ret e) (rational_best_approximation e).

(** clk_set_rate fails on the HSM clock. *)
Definition env_hsm_rate_fails : kernel_env :=
  with_clk_set_rate
    (fun id => match id with HSM_CLOCK => - EINVAL | PIXEL_CLOCK => 0 end) env.

(** The AVI slot (packet 2) never reports idle. *)
Definition env_avi_idle_timeout : kernel_env :=
  with_wait_for
    (fun w => match w with
              | WAIT_PACKET_IDLE id => if id =? 2 then - ETIMEDOUT else 0
              | _ => 0
              end) env.

(** 1920x1080 at 60 Hz, both syncs positive. *)
Definition mode_1080p : drm_display_mode :=
  {| clock := 148500;
     hdisplay := 1920; hsync_start := 2008; hsync_end := 2052; htotal := 2200;
     crtc_vdisplay := 1080; crtc_vsync_start := 1084; crtc_vsync_end := 1089;
     crtc_vtotal := 1125;
     flags := Z.lor (BIT 0) (BIT 2) |}.

Definition audio0 : vc4_hdmi_audio :=
  {| audio_channels := 0; audio_samplerate := 0; iec_status0 := 0;
     streaming := false; chmap := CHMAP_NULL; chmap_idx := 0;
     max_channels := 0; substream := None |}.

(** The device after probe: registers zero, clocks off, no power
    reference, an HDMI monitor attached. *)
Definition dev0 : vc4_hdmi :=
  {| regs := fun _ => 0;
     usage_count := 0;
     pixel_clock := mk_clk 0 0;
     hsm_clock := mk_clk 0 0;
     hdmi_monitor := true;
     limited_rgb_range := false;
     audio := audio0;
     trace := [] |}.

(** The same device with a 48 kHz stereo stream prepared. *)
Definition dev_48k : vc4_hdmi :=
{| regs := fun _ => 0;
   usage_count := 0;
   pixel_clock := mk_clk 0 0;
   hsm_clock := mk_clk 0 0;
   hdmi_monitor := true;
   limited_rgb_range := false;
   audio := {| audio_channels := 2; audio_samplerate := 48000; iec_status0 := 0;
               streaming := false; chmap := CHMAP_NULL; chmap_idx := 0;
               max_channels := 0; substream := Some 0%nat |};
   trace := [] |}.

End Sample.

(** ** Vocabulary of the statements *)

(** The registers that the timing programmers write. *)
Definition vc4_timing_regs : list hdmi_reg :=
  [ HDMI_HORZA; HDMI_HORZB; HDMI_VERTA0; HDMI_VERTA1;
    HDMI_VERTB0; HDMI_VERTB1; HDMI_VID_CTL ].

Definition vc5_timing_regs : list hdmi_reg :=
  HDMI_VEC_INTERFACE_XBAR :: vc4_timing_regs ++ [ HDMI_CLOCK_STOP ].

(** A length rounded up to a whole number of 7-byte chunks. *)
Definition chunked_len (len : Z) : Z := 7 * ((len + 6) / 7).

(** The registers written by a list of events. *)
Definition written_regs (evs : list event) : list hdmi_reg :=
  flat_map (fun ev => match ev with EvWrite r _ => [r] | _ => [] end) evs.

(** A Hoare triple for the monadic code: from a state that satisfies [P],
    the command returns a value and reaches a state related by [Q]. *)
Definition hoare {A} (P : vc4_hdmi -> Prop) (c : M A)
           (Q : A -> vc4_hdmi -> Prop) : Prop :=
  forall s, P s -> Q (eval c s) (exec c s).

(** The resources the device holds: power references, the two clocks and
    the kind of monitor. *)
Definition holds (uc : Z) (pc hc : clk) (hm : bool) (s : vc4_hdmi) : Prop :=
  usage_count s = uc /\ pixel_clock s = pc /\ hsm_clock s = hc /\
  hdmi_monitor s = hm.

(** A command that leaves the resources as they are. *)
Definition keeps {A} (c : M A) : Prop :=
  forall uc pc hc hm, hoare (holds uc pc hc hm) c (fun _ => holds uc pc hc hm).

(** The events of [fifo_recenter], with [drift] the masked value read from
    HDMI_FIFO_CTL and [done_ret] the answer of the last poll. *)
Definition recenter_events (K : header_consts) (drift done_ret : Z) : list event :=
  [ EvWrite HDMI_FIFO_CTL (wrap32 (Z.land drift (Z.lnot (VC4_HDMI_FIFO_CTL_RECENTER K))));
    EvWrite HDMI_FIFO_CTL (wrap32 (Z.lor drift (VC4_HDMI_FIFO_CTL_RECENTER K)));
    EvSleep;
    EvWrite HDMI_FIFO_CTL (wrap32 (Z.land drift (Z.lnot (VC4_HDMI_FIFO_CTL_RECENTER K))));
    EvWrite HDMI_FIFO_CTL (wrap32 (Z.lor drift (VC4_HDMI_FIFO_CTL_RECENTER K))) ]
  ++ (if done_ret =? 0 then []
      else [EvWarn "Timeout waiting for VC4_HDMI_FIFO_CTL_RECENTER_DONE"]).

(** The trace of the device ends with the recenter pulse. *)
Definition ends_with_recenter (K : header_consts) (e : kernel_env) (s : vc4_hdmi) : Prop :=
  exists pre drift,
    trace s = pre ++ recenter_events K drift (wait_for_ret e WAIT_RECENTER_DONE).

(** The device after a successful enable on the sample platform, and the
    audio state after a stream is started with the ELD speaker allocation
    [spk_startup] and prepared for [nchannels] channels at 48 kHz with the
    ELD speaker allocation [spk_prepare]. *)
Definition sample_enabled : vc4_hdmi :=
  exec (vc4_hdmi_encoder_enable Sample.K Sample.env (bcm2835_variant Sample.K)
                                Sample.mode_1080p) Sample.dev0.

Definition sample_audio_after (spk_startup spk_prepare nchannels : Z) : vc4_hdmi_audio :=
  audio (exec (vc4_hdmi_audio_startup Sample.K Sample.env 0 true spk_startup ;;
               vc4_hdmi_audio_prepare Sample.K Sample.env (bcm2835_variant Sample.K)
                                      0 nchannels 48000 spk_prepare Sample.mode_1080p)
              sample_enabled).

(** * Properties *)

(** ** Channel-allocation resolver *)

Section ChannelAllocation.

Variables channels spk_mask : Z.

Lemma first_match_from_sound (tbl : list hdmi_codec_cea_spk_alloc) :
  forall k i,
    first_match_from channels spk_mask k tbl = Some i ->
    exists n : nat,
      i = k + Z.of_nat n /\
      (exists c, nth_error tbl n = Some c /\
                 entry_matches channels spk_mask c = true) /\
      (forall n' c, (n' < n)%nat -> nth_error tbl n' = Some c ->
                    entry_matches channels spk_mask c = false).
Proof.
  induction tbl as [|c rest IH]; intros k i H; simpl in H.
  - discriminate.
  - destruct (entry_matches channels spk_mask c) eqn:Hc.
    + inversion H; subst i. exists 0%nat. repeat split.
      * lia.
      * exists c. split; [reflexivity | assumption].
      * intros n' c' Hlt. inversion Hlt.
    + apply IH in H. destruct H as (n & Hi & (c' & Hn & Hm) & Hbefore).
      exists (S n). repeat split.
      * lia.
      * exists c'. split; assumption.
      * intros [|n'] c'' Hlt Hnth; simpl in Hnth.
        -- inversion Hnth; subst; assumption.
        -- apply (Hbefore n'); [lia | assumption].
Qed.

Lemma first_match_from_complete (tbl : list hdmi_codec_cea_spk_alloc) :
  forall k (n : nat) c,
    nth_error tbl n = Some c ->
    entry_matches channels spk_mask c = true ->
    (forall n' c', (n' < n)%nat -> nth_error tbl n' = Some c' ->
                   entry_matches channels spk_mask c' = false) ->
    first_match_from channels spk_mask k tbl = Some (k + Z.of_nat n).
Proof.
  induction tbl as [|c0 rest IH]; intros k n c Hn Hm Hbefore.
  - destruct n; discriminate.
  - destruct n as [|n]; simpl in Hn |- *.
    + inversion Hn; subst c0. rewrite Hm. f_equal. lia.
    + rewrite (Hbefore 0%nat c0) by (simpl; auto; lia).
      rewrite (IH (k + 1) n c Hn Hm).
      * f_equal. lia.
      * intros n' c' Hlt Hnth. apply (Hbefore (S n')); [lia | exact Hnth].
Qed.

Lemma first_match_from_None (tbl : list hdmi_codec_cea_spk_alloc) :
  forall k,
    first_match_from channels spk_mask k tbl = None <->
    (forall c, In c tbl -> entry_matches channels spk_mask c = false).
Proof.
  induction tbl as [|c rest IH]; intros k; simpl.
  - split; [intros _ c [] | reflexivity].
  - destruct (entry_matches channels spk_mask c) eqn:Hc.
    + split; [discriminate |].
      intros H. rewrite (H c) in Hc by (left; reflexivity). discriminate.
    + rewrite IH. split.
      * intros H c' [<- | Hin]; [assumption | apply H; assumption].
      * intros H c' Hin. apply H. right. assumption.
Qed.

(** The specification's lookup finds exactly the first matching entry. *)
Lemma spec_first_match_iff (i : Z) :
  spec_first_match channels spk_mask = Some i <->
  is_first_match channels spk_mask i.
Proof.
  unfold spec_first_match, is_first_match. split.
  - intros H. apply first_match_from_sound in H.
    destruct H as (n & Hi & Hc & Hb). exists n. repeat split; auto.
  - intros (n & Hi & (c & Hn & Hm) & Hb). subst i.
    apply (first_match_from_complete _ 0 n c Hn Hm Hb).
Qed.

(** With a speaker allocation that is not zero, the scan of the driver
    is the specification's lookup. *)
Lemma ch_alloc_scan_first_match (spk_alloc : Z) (tbl : list hdmi_codec_cea_spk_alloc) :
  spk_alloc <> 0 ->
  forall k,
    ch_alloc_scan spk_alloc spk_mask channels k tbl =
    match first_match_from channels spk_mask k tbl with
    | Some i => i
    | None => - EINVAL
    end.
Proof.
  intros Hnz. apply Z.eqb_neq in Hnz.
  induction tbl as [|c rest IH]; intros k; simpl.
  - reflexivity.
  - rewrite Hnz. simpl. unfold entry_matches.
    rewrite (Z.land_comm (mask c) spk_mask), (Z.eqb_sym (Z.land spk_mask (mask c))).
    destruct (n_ch c =? channels); simpl.
    + destruct (mask c =? Z.land spk_mask (mask c)); simpl; [reflexivity | apply IH].
    + apply IH.
Qed.

End ChannelAllocation.

(** C2 as stated fails when the receiver reports no speakers: with a
    speaker-allocation byte of 0 and 6 channels requested,
    [hdmi_codec_get_ch_alloc_table_idx] returns index 0, the stereo entry,
    which is not the first entry with 6 channels whose speakers are present
    (no entry is). *)
Lemma ch_alloc_table_idx_unplugged_not_first_match :
  hdmi_codec_get_ch_alloc_table_idx 0 6 = 0 /\
  ~ is_first_match 6 (hdmi_codec_spk_mask_from_alloc 0) 0.
Proof.
  split; [reflexivity |].
  intros (n & Hn & (c & Hc & Hm) & _).
  destruct n as [|n]; [| lia].
  simpl in Hc. inversion Hc; subst c. vm_compute in Hm. discriminate.
Qed.

(** C2 (amended): [hdmi_codec_get_ch_alloc_table_idx] returns index 0 when
    the speaker-allocation byte is 0, whatever the channel count; otherwise
    it returns the index of the first entry of [hdmi_codec_channel_alloc],
    in table order, whose channel count equals the requested count and
    whose speaker mask is a subset of the expanded presence mask, or
    [-EINVAL] when no entry matches.  For the presence mask
    FL|FR|LFE|FC|RL|RR and 6 channels the selected entry has allocation
    code 0x0b. *)
Theorem ch_alloc_table_idx_first_match :
  forall spk_alloc channels : Z,
    let spk_mask := hdmi_codec_spk_mask_from_alloc spk_alloc in
    hdmi_codec_get_ch_alloc_table_idx spk_alloc channels =
      (if spk_alloc =? 0 then 0
       else match spec_first_match channels spk_mask with
            | Some i => i
            | None => - EINVAL
            end)
    /\ (forall i, spec_first_match channels spk_mask = Some i <->
                  is_first_match channels spk_mask i)
    /\ (spec_first_match channels spk_mask = None <->
        forall c, In c hdmi_codec_channel_alloc ->
                  entry_matches channels spk_mask c = false)
    /\ hdmi_codec_spk_mask_from_alloc 0x0f = spk_or [FL; FR; LFE; FC; RL; RR]
    /\ hdmi_codec_get_ch_alloc_table_idx 0x0f 6 = 3
    /\ option_map ca_id (nth_error hdmi_codec_channel_alloc 3) = Some 0x0b.
Proof.
  intros spk_alloc channels spk_mask. repeat split.
  - destruct (spk_alloc =? 0) eqn:Hz.
    + apply Z.eqb_eq in Hz. subst spk_alloc. reflexivity.
    + apply Z.eqb_neq in Hz. unfold hdmi_codec_get_ch_alloc_table_idx.
      apply ch_alloc_scan_first_match. exact Hz.
  - apply spec_first_match_iff.
  - apply spec_first_match_iff.
  - apply first_match_from_None.
  - apply first_match_from_None.
Qed.

(** ** Channel-map table selection *)





(** ** HSM clock formulas *)

Lemma wrap_small (w x : Z) : 0 <= x < 2 ^ w -> wrap w x = x.
Proof. intros H. unfold wrap. apply Z.mod_small. exact H. Qed.

Lemma pow2_32 : 2 ^ 32 = 4294967296.
Proof. reflexivity. Qed.

Lemma ulong_small (K : header_consts) (x : Z) :
  32 <= BITS_PER_LONG K -> 0 <= x < 2 ^ 32 -> ulong K x = x.
Proof.
  intros HK Hx. unfold ulong. apply wrap_small.
  assert (2 ^ 32 <= 2 ^ BITS_PER_LONG K) by (apply Z.pow_le_mono_r; lia).
  lia.
Qed.

(** C5 as stated fails for a pixel rate that is not a multiple of 100 Hz:
    at 148351648 Hz the second-generation formula returns 149835116, more
    than 1 Hz below 148351648 x 1.01 = 149835164.48, so it is not
    max(108 MHz, pixel_rate x 1.01) under any rounding. *)
Lemma vc5_hsm_clock_not_101_percent :
  vc5_hdmi_calc_hsm_clock Sample.K 148351648 = 149835116 /\
  100 * 149835116 + 100 < 101 * 148351648 /\
  149835116 <> Z.max 108000000 (148351648 * 101 / 100).
Proof. repeat split; vm_compute; congruence. Qed.

(** C5 (amended): for every pixel rate whose result fits 32 bits,
    [vc5_hdmi_calc_hsm_clock] returns max(108 MHz, (pixel_rate / 100) x 101),
    the division by 100 truncating before the multiplication; this is
    pixel_rate x 1.01 exactly when the pixel rate is a multiple of 100 Hz
    and never more than it.  [vc4_hdmi_calc_hsm_clock] returns the constant
    163682864 for every pixel rate. *)
Theorem hsm_clock_formulas :
  forall (K : header_consts) (pixel_rate : Z),
    32 <= BITS_PER_LONG K ->
    0 <= pixel_rate ->
    (pixel_rate / 100) * 101 < 2 ^ 32 ->
    vc5_hdmi_calc_hsm_clock K pixel_rate
      = Z.max 108000000 ((pixel_rate / 100) * 101)
    /\ (pixel_rate mod 100 = 0 ->
        100 * vc5_hdmi_calc_hsm_clock K pixel_rate
          = Z.max (100 * 108000000) (101 * pixel_rate))
    /\ 100 * ((pixel_rate / 100) * 101) <= 101 * pixel_rate
    /\ (forall any_rate, vc4_hdmi_calc_hsm_clock any_rate = 163682864).
Proof.
  intros K p HK Hp Hfit.
  assert (Hq : 0 <= p / 100) by (apply Z.div_pos; lia).
  assert (Heq : vc5_hdmi_calc_hsm_clock K p = Z.max 108000000 (p / 100 * 101)).
  { unfold vc5_hdmi_calc_hsm_clock.
    rewrite !ulong_small by (rewrite ?pow2_32 in *; lia).
    apply wrap_small. rewrite pow2_32 in *. lia. }
  split; [| split; [| split]].
  - exact Heq.
  - intros Hmod. rewrite Heq.
    pose proof (Z.div_mod p 100 ltac:(lia)) as Hdm. lia.
  - pose proof (Z.div_mod p 100 ltac:(lia)) as Hdm.
    pose proof (Z.mod_pos_bound p 100 ltac:(lia)). lia.
  - intros any_rate. reflexivity.
Qed.

Lemma hsm_clock_formulas_witness :
  32 <= BITS_PER_LONG Sample.K /\ 0 <= 148500000 /\
  (148500000 / 100) * 101 < 2 ^ 32 /\
  vc5_hdmi_calc_hsm_clock Sample.K 148500000
    = Z.max 108000000 ((148500000 / 100) * 101).
Proof.
  assert (H1 : 32 <= BITS_PER_LONG Sample.K) by (vm_compute; discriminate).
  assert (H2 : 0 <= 148500000) by lia.
  assert (H3 : (148500000 / 100) * 101 < 2 ^ 32) by (vm_compute; reflexivity).
  split; [exact H1 | split; [exact H2 | split; [exact H3 |]]].
  exact (proj1 (hsm_clock_formulas Sample.K 148500000 H1 H2 H3)).
Defined.

(** ** MAI audio format *)

Lemma mai_audio_format_of_HBR (K : header_consts) (iec0 nchannels : Z) :
  mai_audio_format_of K iec0 nchannels = VC4_HDMI_MAI_FORMAT_HBR <->
  (Z.land iec0 (IEC958_AES0_NONAUDIO K) <> 0 /\ nchannels = 8).
Proof.
  unfold mai_audio_format_of.
  destruct (Z.land iec0 (IEC958_AES0_NONAUDIO K) =? 0) eqn:Hf;
    destruct (nchannels =? 8) eqn:Hc; simpl;
    rewrite ?Z.eqb_eq, ?Z.eqb_neq in *; split;
    try discriminate; try tauto; try (intros [? ?]; congruence).
Qed.

(** ** The state monad *)

Lemma exec_bind {A B} (c : M A) (k : A -> M B) (s : vc4_hdmi) :
  exec (bind c k) s = exec (k (eval c s)) (exec c s).
Proof. unfold exec, eval, bind. destruct (c s). reflexivity. Qed.

Lemma eval_bind {A B} (c : M A) (k : A -> M B) (s : vc4_hdmi) :
  eval (bind c k) s = eval (k (eval c s)) (exec c s).
Proof. unfold exec, eval, bind. destruct (c s). reflexivity. Qed.

(** Runs the monadic code of the driver on a state given by its fields:
    unfolds the monad, the primitives and the record projections, and
    leaves arithmetic, the environment and the list operations alone. *)
Ltac drv_run_with tac :=
  cbv beta iota zeta delta
    [exec eval bind ret when emit set_regs set_usage_count
     get_clk set_clk set_limited_rgb_range get_limited_rgb_range
     get_audio set_audio update_audio get_hdmi_monitor call_hook
     HDMI_WRITE HDMI_READ wait_for
     pm_runtime_get_sync pm_runtime_put clk_set_rate clk_prepare_enable
     clk_disable_unprepare clk_get_rate
     regs usage_count pixel_clock hsm_clock hdmi_monitor limited_rgb_range
     audio trace
     audio_channels audio_samplerate iec_status0 streaming chmap chmap_idx
     max_channels substream clk_rate clk_enable_count
     fst snd hdmi_reg_beq negb andb orb]; tac.

Ltac drv_run := drv_run_with idtac.

Ltac destruct_dev s :=
  let rg := fresh "rg" in let uc := fresh "uc" in
  let pc := fresh "pc" in let hc := fresh "hc" in
  let hm := fresh "hm" in let lr := fresh "lr" in
  let au := fresh "au" in let tr := fresh "tr" in
  destruct s as [rg uc [? ?] [? ?] hm lr [? ? ? ? ? ? ? ?] tr].



(** ** Timing programmer *)

(** C8: the words that [vc4_hdmi_set_timings] and [vc5_hdmi_set_timings]
    write are a function of the mode (and of the header constants) alone:
    each programmer issues one list of writes, the same from every device
    state and to the timing registers only, so that programming the same
    mode a second time writes the same words and leaves every register
    with the value it had after the first time. *)
Theorem set_timings_deterministic :
  forall (K : header_consts) (mode : drm_display_mode),
    (exists words : list event,
        written_regs words = vc4_timing_regs /\
        forall s, trace (exec (vc4_hdmi_set_timings K mode) s) = trace s ++ words)
    /\ (forall s r,
          regs (exec (vc4_hdmi_set_timings K mode)
                     (exec (vc4_hdmi_set_timings K mode) s)) r
          = regs (exec (vc4_hdmi_set_timings K mode) s) r)
    /\ (forall s1 s2 r, In r vc4_timing_regs ->
          regs (exec (vc4_hdmi_set_timings K mode) s1) r
          = regs (exec (vc4_hdmi_set_timings K mode) s2) r)
    /\ (exists words : list event,
          written_regs words = vc5_timing_regs /\
          forall s, trace (exec (vc5_hdmi_set_timings K mode) s) = trace s ++ words)
    /\ (forall s r,
          regs (exec (vc5_hdmi_set_timings K mode)
                     (exec (vc5_hdmi_set_timings K mode) s)) r
          = regs (exec (vc5_hdmi_set_timings K mode) s) r)
    /\ (forall s1 s2 r, In r vc5_timing_regs ->
          regs (exec (vc5_hdmi_set_timings K mode) s1) r
          = regs (exec (vc5_hdmi_set_timings K mode) s2) r).
Proof.
  intros K mode.
  split; [| split; [| split; [| split; [| split]]]].
  - eexists. split; [| intros s].
    2: { destruct_dev s. drv_run_with ltac:(cbv delta [vc4_hdmi_set_timings]).
         drv_run. rewrite <- !app_assoc. cbn [app]. reflexivity. }
    reflexivity.
  - intros s r. destruct_dev s.
    drv_run_with ltac:(cbv delta [vc4_hdmi_set_timings]). drv_run.
    destruct r; reflexivity.
  - intros s1 s2 r Hin. destruct_dev s1. destruct_dev s2.
    drv_run_with ltac:(cbv delta [vc4_hdmi_set_timings]). drv_run.
    cbv [vc4_timing_regs In] in Hin.
    repeat (destruct Hin as [<- | Hin]; [reflexivity |]). destruct Hin.
  - eexists. split; [| intros s].
    2: { destruct_dev s. drv_run_with ltac:(cbv delta [vc5_hdmi_set_timings]).
         drv_run. rewrite <- !app_assoc. cbn [app]. reflexivity. }
    reflexivity.
  - intros s r. destruct_dev s.
    drv_run_with ltac:(cbv delta [vc5_hdmi_set_timings]). drv_run.
    destruct r; reflexivity.
  - intros s1 s2 r Hin. destruct_dev s1. destruct_dev s2.
    drv_run_with ltac:(cbv delta [vc5_hdmi_set_timings]). drv_run.
    cbv [vc5_timing_regs vc4_timing_regs In app] in Hin.
    repeat (destruct Hin as [<- | Hin]; [reflexivity |]). destruct Hin.
Qed.

(** ** Audio clock recovery: N and CTS *)

Lemma n_of_samplerate_exact (rate : Z) :
  0 < rate < 2 ^ 25 ->
  n_of_samplerate rate = 128 * rate / 1000.
Proof.
  intros H. unfold n_of_samplerate, wrap32.
  change (2 ^ 25) with 33554432 in H.
  rewrite (wrap_small 32 (128 * rate)) by (rewrite pow2_32; lia).
  apply wrap_small. rewrite pow2_32.
  assert (0 <= 128 * rate / 1000) by (apply Z.div_pos; lia).
  assert (128 * rate / 1000 <= 128 * rate) by (apply Z.div_le_upper_bound; lia).
  lia.
Qed.

Lemma cts_of_exact (mode_clock rate : Z) :
  0 < rate < 2 ^ 25 ->
  0 <= mode_clock -> mode_clock * 1000 < 2 ^ 31 ->
  cts_of mode_clock rate
  = mode_clock * 1000 * (128 * rate / 1000) / (128 * rate).
Proof.
  intros Hr Hc0 Hc. unfold cts_of. rewrite (n_of_samplerate_exact rate Hr).
  change (2 ^ 25) with 33554432 in Hr. change (2 ^ 31) with 2147483648 in Hc.
  set (P := mode_clock * 1000) in *.
  set (N := 128 * rate / 1000).
  assert (HN0 : 0 <= N) by (apply Z.div_pos; lia).
  assert (HN : N <= 128 * rate) by (apply Z.div_le_upper_bound; lia).
  assert (HsP : sint32 P = P).
  { unfold sint32. change (2 ^ 31) with 2147483648. change (2 ^ 32) with 4294967296.
    rewrite Z.mod_small by lia. lia. }
  rewrite HsP. unfold wrap64, wrap32.
  rewrite (wrap_small 64 P) by (change (2 ^ 64) with 18446744073709551616; lia).
  rewrite (wrap_small 64 (P * N))
    by (change (2 ^ 64) with 18446744073709551616; nia).
  rewrite (wrap_small 32 (128 * rate)) by (rewrite pow2_32; lia).
  apply wrap_small. rewrite pow2_32. split.
  - apply Z.div_pos; nia.
  - assert (P * N / (128 * rate) <= P).
    { apply Z.div_le_upper_bound; nia. }
    lia.
Qed.

(** C6: for every sample rate and mode clock in the range where the
    driver's 32- and 64-bit arithmetic is exact (0 < rate < 2^25 Hz, pixel
    clock below 2^31 Hz), [vc4_hdmi_set_n_cts] computes
    N = 128 x rate / 1000 and CTS = pixel_clock x N / (128 x rate) with
    integer division (pixel clock in Hz), writes N, in its field and with
    the external-CTS bit, to HDMI_CRP_CFG, and writes the same CTS to
    HDMI_CTS_0 and HDMI_CTS_1; it writes nothing else. *)
Theorem set_n_cts_values :
  forall (K : header_consts) (mode : drm_display_mode) (s : vc4_hdmi),
    let rate := audio_samplerate (audio s) in
    let N := 128 * rate / 1000 in
    let CTS := (clock mode * 1000) * N / (128 * rate) in
    0 < rate < 2 ^ 25 ->
    0 <= clock mode ->
    clock mode * 1000 < 2 ^ 31 ->
    let s' := exec (vc4_hdmi_set_n_cts K mode) s in
    trace s' = trace s ++
      [ EvWrite HDMI_CRP_CFG
          (wrap32 (Z.lor (VC4_HDMI_CRP_CFG_EXTERNAL_CTS_EN K)
                         (VC4_SET_FIELD N (VC4_HDMI_CRP_CFG_N K))));
        EvWrite HDMI_CTS_0 CTS;
        EvWrite HDMI_CTS_1 CTS ]
    /\ regs s' HDMI_CTS_0 = CTS
    /\ regs s' HDMI_CTS_1 = CTS
    /\ regs s' HDMI_CRP_CFG
       = wrap32 (Z.lor (VC4_HDMI_CRP_CFG_EXTERNAL_CTS_EN K)
                       (VC4_SET_FIELD N (VC4_HDMI_CRP_CFG_N K))).
Proof.
  intros K mode s rate N CTS Hr Hc0 Hc s'.
  assert (Hw : wrap32 rate = rate).
  { apply wrap_small. change (2 ^ 25) with 33554432 in Hr. rewrite pow2_32. lia. }
  assert (HN : n_of_samplerate rate = N) by (apply n_of_samplerate_exact; exact Hr).
  assert (HC : cts_of (clock mode) rate = CTS) by (apply cts_of_exact; assumption).
  assert (HC32 : wrap32 CTS = CTS).
  { rewrite <- HC. unfold cts_of, wrap32, wrap. apply Z.mod_mod.
    rewrite pow2_32. lia. }
  subst s' CTS N rate.
  destruct_dev s. cbn [audio audio_samplerate] in *.
  drv_run_with ltac:(cbv delta [vc4_hdmi_set_n_cts]). drv_run.
  rewrite Hw, HN, HC, HC32, <- !app_assoc. cbn [app].
  repeat split; reflexivity.
Qed.

Lemma set_n_cts_values_witness :
  0 < 48000 < 2 ^ 25 /\ 0 <= 148500 /\ 148500 * 1000 < 2 ^ 31 /\
  regs (exec (vc4_hdmi_set_n_cts Sample.K Sample.mode_1080p) Sample.dev_48k)
       HDMI_CTS_0 = 148500 /\
  regs (exec (vc4_hdmi_set_n_cts Sample.K Sample.mode_1080p) Sample.dev_48k)
       HDMI_CTS_1 = 148500 /\
  regs (exec (vc4_hdmi_set_n_cts Sample.K Sample.mode_1080p) Sample.dev_48k)
       HDMI_CRP_CFG = Z.lor (BIT 24) 6144.
Proof.
  assert (H1 : 0 < 48000 < 2 ^ 25) by (split; reflexivity).
  assert (H2 : 0 <= 148500) by (intro H; discriminate H).
  assert (H3 : 148500 * 1000 < 2 ^ 31) by reflexivity.
  split; [exact H1 | split; [exact H2 | split; [exact H3 |]]].
  exact (proj2 (set_n_cts_values Sample.K Sample.mode_1080p
                  Sample.dev_48k H1 H2 H3)).
Defined.

(** ** MAI format programmed by the stream preparation *)

Ltac unfold_prepare :=
  cbv delta [vc4_hdmi_audio_prepare vc4_hdmi_audio_set_mai_clock
             vc4_hdmi_set_n_cts bcm2835_variant bcm2711_variant
             get_hsm_clock channel_map
             vc4_hdmi_get_hsm_clock vc5_hdmi_get_hsm_clock].

(** C4: [vc4_hdmi_audio_prepare] selects the HBR MAI format exactly when
    the non-audio flag is set in channel-status byte 0 and the channel
    count is 8, and the PCM format in every other case; the format selected
    is the one it programs, with the sample-rate code, into HDMI_MAI_FMT. *)
Theorem audio_prepare_mai_format :
  forall (K : header_consts) (e : kernel_env) (variant : vc4_hdmi_variant)
         (s : vc4_hdmi) (stream : nat)
         (runtime_channels runtime_rate spk_alloc : Z) (mode : drm_display_mode),
    variant = bcm2835_variant K \/ variant = bcm2711_variant K ->
    substream (audio s) = Some stream ->
    let iec0 := iec_status0 (audio s) in
    let fmt := mai_audio_format_of K iec0 runtime_channels in
    let nonaudio_and_8ch :=
      Z.land iec0 (IEC958_AES0_NONAUDIO K) <> 0 /\ runtime_channels = 8 in
    (fmt = VC4_HDMI_MAI_FORMAT_HBR <-> nonaudio_and_8ch)
    /\ (fmt = VC4_HDMI_MAI_FORMAT_PCM <-> ~ nonaudio_and_8ch)
    /\ regs (exec (vc4_hdmi_audio_prepare K e variant stream runtime_channels
                     runtime_rate spk_alloc mode) s) HDMI_MAI_FMT
       = wrap32 (Z.lor
           (VC4_SET_FIELD (mai_sample_rate_code K (sample_rate_to_mai_fmt runtime_rate))
                          (VC4_HDMI_MAI_FORMAT_SAMPLE_RATE K))
           (VC4_SET_FIELD (mai_audio_format_code K fmt)
                          (VC4_HDMI_MAI_FORMAT_AUDIO_FORMAT K))).
Proof.
  intros K e variant s stream ch rate spk mode HV Hsub iec0 fmt cond.
  pose proof (mai_audio_format_of_HBR K iec0 ch) as HHBR. fold fmt cond in HHBR.
  split; [exact HHBR |]. split.
  - rewrite <- HHBR. destruct fmt; split; congruence.
  - subst fmt cond iec0. clear HHBR.
    destruct_dev s. cbn [audio substream iec_status0] in *. subst.
    destruct HV as [-> | ->]; unfold_prepare; drv_run;
      rewrite Nat.eqb_refl; drv_run;
      destruct (hdmi_codec_get_ch_alloc_table_idx spk (wrap8 ch) <? 0);
      reflexivity.
Qed.

Lemma audio_prepare_mai_format_witness :
  (bcm2835_variant Sample.K = bcm2835_variant Sample.K
   \/ bcm2835_variant Sample.K = bcm2711_variant Sample.K) /\
  substream (audio Sample.dev_48k) = Some 0%nat /\
  regs (exec (vc4_hdmi_audio_prepare Sample.K Sample.env (bcm2835_variant Sample.K)
                0 2 48000 1 Sample.mode_1080p) Sample.dev_48k) HDMI_MAI_FMT
  = 0x20900.
Proof.
  assert (H1 : bcm2835_variant Sample.K = bcm2835_variant Sample.K
               \/ bcm2835_variant Sample.K = bcm2711_variant Sample.K)
    by (left; reflexivity).
  assert (H2 : substream (audio Sample.dev_48k) = Some 0%nat) by reflexivity.
  split; [exact H1 | split; [exact H2 |]].
  exact (proj2 (proj2 (audio_prepare_mai_format Sample.K Sample.env
                         (bcm2835_variant Sample.K) Sample.dev_48k 0 2 48000 1
                         Sample.mode_1080p H1 H2))).
Defined.

(** ** The copy loop of the infoframe writer *)

Section CopyLoop.

Variable buffer : list Z.
Variable len : Z.

Lemma chunked_bounds : len <= chunked_len len < len + 7.
Proof.
  unfold chunked_len.
  pose proof (Z.div_mod (len + 6) 7 ltac:(lia)).
  pose proof (Z.mod_pos_bound (len + 6) 7 ltac:(lia)). lia.
Qed.

Lemma next_chunk_below (i : Z) :
  0 <= i -> i mod 7 = 0 -> i < len -> i + 7 <= chunked_len len.
Proof.
  intros Hi Hm Hlt. unfold chunked_len.
  pose proof (Z.div_mod i 7 ltac:(lia)).
  pose proof (Z.div_mod (len + 6) 7 ltac:(lia)).
  pose proof (Z.mod_pos_bound (len + 6) 7 ltac:(lia)). lia.
Qed.

Lemma chunk_step_mod (i : Z) : i mod 7 = 0 -> (i + 7) mod 7 = 0.
Proof.
  intros H. replace (i + 7) with (i + 1 * 7) by lia.
  rewrite Z.mod_add by lia. exact H.
Qed.

Lemma copy_loop_reads_below (fuel : nat) :
  forall i packet_reg,
    0 <= i -> i mod 7 = 0 ->
    Forall (fun j => i <= j < chunked_len len)
           (fst (infoframe_copy_loop fuel buffer len i packet_reg)).
Proof.
  induction fuel as [|fuel IH]; intros i pr Hi Hm; simpl.
  - constructor.
  - destruct (i <? len) eqn:Hlt; [| constructor].
    apply Z.ltb_lt in Hlt.
    pose proof (next_chunk_below i Hi Hm Hlt) as Hn.
    cbn [fst app].
    repeat (constructor; [lia |]).
    eapply Forall_impl; [| apply (IH (i + 7) (pr + 8)); [lia | apply chunk_step_mod; exact Hm]].
    cbv beta. intros j Hj. lia.
Qed.

Lemma copy_loop_reads_all (fuel : nat) :
  forall i packet_reg,
    0 <= i -> i mod 7 = 0 ->
    (Z.to_nat (len - i) <= fuel)%nat ->
    forall j, i <= j < chunked_len len ->
              In j (fst (infoframe_copy_loop fuel buffer len i packet_reg)).
Proof.
  induction fuel as [|fuel IH]; intros i pr Hi Hm Hfuel j Hj.
  - exfalso. pose proof chunked_bounds as Hc.
    assert (len <= i) by lia.
    (* a multiple of 7 at or above len is at or above the chunked length *)
    unfold chunked_len in *.
    pose proof (Z.div_mod i 7 ltac:(lia)).
    pose proof (Z.div_mod (len + 6) 7 ltac:(lia)).
    pose proof (Z.mod_pos_bound (len + 6) 7 ltac:(lia)). lia.
  - simpl. destruct (i <? len) eqn:Hlt.
    + apply Z.ltb_lt in Hlt. cbn [fst].
      destruct (Z_lt_ge_dec j (i + 7)) as [Hin | Hout].
      * assert (Hcases : j = i + 0 \/ j = i + 1 \/ j = i + 2 \/ j = i + 3 \/
                         j = i + 4 \/ j = i + 5 \/ j = i + 6) by lia.
        cbn [In].
        repeat (destruct Hcases as [-> | Hcases]; [auto 10 |]). subst j. auto 10.
      * cbn [In]. do 7 right.
        apply (IH (i + 7) (pr + 8)); [lia | apply chunk_step_mod; exact Hm | lia | lia].
    + exfalso. apply Z.ltb_ge in Hlt. unfold chunked_len in *.
      pose proof (Z.div_mod i 7 ltac:(lia)).
      pose proof (Z.div_mod (len + 6) 7 ltac:(lia)).
      pose proof (Z.mod_pos_bound (len + 6) 7 ltac:(lia)). lia.
Qed.

End CopyLoop.

(** The loop reads exactly the indices below the length rounded up to a
    multiple of 7. *)
Lemma infoframe_buffer_reads_iff (len j : Z) :
  In j (infoframe_buffer_reads len) <-> 0 <= j < chunked_len len.
Proof.
  unfold infoframe_buffer_reads, infoframe_copy. split.
  - intros Hin.
    pose proof (copy_loop_reads_below [] len (Z.to_nat len) 0 0
                  ltac:(lia) ltac:(reflexivity)) as Hall.
    rewrite Forall_forall in Hall. apply Hall. exact Hin.
  - intros Hj.
    apply copy_loop_reads_all; [lia | reflexivity | | exact Hj].
    rewrite Z.sub_0_r. apply Nat.le_refl.
Qed.

(** C9 as stated fails at the upper end of its range: with the packet
    stride of 0x24 bytes and a packed length of 36, the last iteration
    (i = 35) reads the indices 35 to 41 of the 36-byte buffer. *)
Lemma infoframe_copy_reads_past_buffer :
  0 < 36 <= VC4_HDMI_PACKET_STRIDE Sample.K /\
  In 41 (infoframe_buffer_reads 36) /\
  VC4_HDMI_PACKET_STRIDE Sample.K <= 41.
Proof.
  split; [split; [reflexivity | intro H; discriminate H] |].
  split; [| intro H; discriminate H].
  vm_compute. tauto.
Qed.

(** C9 (amended): for every packed length [len] with
    0 < len <= VC4_HDMI_PACKET_STRIDE, the copy loop reads exactly the
    buffer indices below [len] rounded up to a multiple of 7; they all lie
    within the stride-sized buffer when len <= 7 * (stride / 7), that is up
    to 35 for the stride of 36, and otherwise the last iteration reads at
    or beyond the end of the buffer. *)
Theorem infoframe_copy_reads :
  forall (K : header_consts) (len : Z),
    0 < len <= VC4_HDMI_PACKET_STRIDE K ->
    (forall j, In j (infoframe_buffer_reads len) <-> 0 <= j < chunked_len len)
    /\ (len <= 7 * (VC4_HDMI_PACKET_STRIDE K / 7) ->
        Forall (fun j => 0 <= j < VC4_HDMI_PACKET_STRIDE K)
               (infoframe_buffer_reads len))
    /\ (7 * (VC4_HDMI_PACKET_STRIDE K / 7) < len ->
        exists j, In j (infoframe_buffer_reads len) /\
                  VC4_HDMI_PACKET_STRIDE K <= j).
Proof.
  intros K len Hlen.
  set (stride := VC4_HDMI_PACKET_STRIDE K) in *.
  pose proof (Z.div_mod (len + 6) 7 ltac:(lia)) as Hd.
  pose proof (Z.mod_pos_bound (len + 6) 7 ltac:(lia)) as Hm.
  pose proof (Z.div_mod stride 7 ltac:(lia)) as Hds.
  pose proof (Z.mod_pos_bound stride 7 ltac:(lia)) as Hms.
  split; [| split].
  - intros j. apply infoframe_buffer_reads_iff.
  - intros Hfit. apply Forall_forall. intros j Hin.
    apply infoframe_buffer_reads_iff in Hin. unfold chunked_len in Hin. lia.
  - intros Hover. exists (chunked_len len - 1). split.
    + apply infoframe_buffer_reads_iff. unfold chunked_len. lia.
    + unfold chunked_len. lia.
Qed.

Lemma infoframe_copy_reads_witness :
  0 < 29 <= VC4_HDMI_PACKET_STRIDE Sample.K /\
  29 <= 7 * (VC4_HDMI_PACKET_STRIDE Sample.K / 7) /\
  Forall (fun j => 0 <= j < VC4_HDMI_PACKET_STRIDE Sample.K)
         (infoframe_buffer_reads 29).
Proof.
  assert (H : 0 < 29 <= VC4_HDMI_PACKET_STRIDE Sample.K)
    by (split; [reflexivity | intro H; discriminate H]).
  assert (H' : 29 <= 7 * (VC4_HDMI_PACKET_STRIDE Sample.K / 7))
    by (intro H'; discriminate H').
  split; [exact H | split; [exact H' |]].
  exact (proj1 (proj2 (infoframe_copy_reads Sample.K 29 H)) H').
Defined.

(** ** The channel-map control *)

(** Whatever table is selected, the unknown marker is not an index of it,
    and [vc4_chmap_ctl_get] applies it to the table all the same. *)
Lemma chmap_ctl_get_unknown_lookup (a : vc4_hdmi_audio) :
  chmap a <> CHMAP_NULL ->
  chmap_idx a = HDMI_CODEC_CHMAP_IDX_UNKNOWN ->
  ctl_lookup (vc4_chmap_ctl_get a) = Some (-1) /\
  ~ chmap_index_in_bounds (chmap a) (-1).
Proof.
  intros Hnull Hidx. unfold vc4_chmap_ctl_get, chmap_index_in_bounds.
  rewrite Hidx. split.
  - destruct (chmap a); [contradiction | reflexivity | reflexivity].
  - lia.
Qed.

(** C10, evaluated: a stream is started on a receiver whose ELD reports
    the front pair only (stereo table selected) and prepared for 6
    channels; the allocation lookup fails, [chmap_idx] is -1, and
    [vc4_chmap_ctl_get] forms [chmap[-1]], an index outside the table.  If
    the ELD changes to a 5.1 receiver between the two calls, the stereo
    table of 2 elements is indexed with the allocation code 0x0b and
    every value is read outside the table. *)
Theorem chmap_ctl_get_index_out_of_bounds :
  let a := sample_audio_after 1 1 6 in
  let b := sample_audio_after 1 0x0f 6 in
  (chmap a = CHMAP_STEREO /\
   chmap_idx a = HDMI_CODEC_CHMAP_IDX_UNKNOWN /\
   ctl_ret (vc4_chmap_ctl_get a) = 0 /\
   ctl_lookup (vc4_chmap_ctl_get a) = Some (-1) /\
   ~ chmap_index_in_bounds (chmap a) (-1))
  /\
  (chmap b = CHMAP_STEREO /\
   chmap_idx b = 0x0b /\
   ctl_lookup (vc4_chmap_ctl_get b) = Some 0x0b /\
   ~ chmap_index_in_bounds (chmap b) 0x0b /\
   ctl_values (vc4_chmap_ctl_get b) = repeat None 8).
Proof.
  cbv zeta.
  assert (Ha : sample_audio_after 1 1 6
               = mk_audio 6 48000 0 false CHMAP_STEREO (-1) 8 (Some 0%nat))
    by (vm_compute; reflexivity).
  assert (Hb : sample_audio_after 1 0x0f 6
               = mk_audio 6 48000 0 false CHMAP_STEREO 0x0b 8 (Some 0%nat))
    by (vm_compute; reflexivity).
  rewrite Ha, Hb. unfold chmap_index_in_bounds. cbn [chmap chmap_idx].
  repeat split; try reflexivity.
  - cbn. lia.
  - cbn. lia.
Qed.

(** ** Encoder enable: the clock setup *)

Ltac unfold_enable :=
  cbv delta [vc4_hdmi_encoder_enable].

(** Rewrites with an answer of the environment wherever the run exposes
    it. *)
Ltac drv_rw H := repeat (rewrite H; drv_run).

(** Whichever clock step fails, [vc4_hdmi_encoder_enable] returns with the
    power-domain reference it took still held. *)
Lemma encoder_enable_failure_keeps_power
      (K : header_consts) (e : kernel_env) (variant : vc4_hdmi_variant)
      (mode : drm_display_mode) (s : vc4_hdmi) :
  0 <= pm_runtime_get_sync_ret e ->
  clk_set_rate_ret e PIXEL_CLOCK <> 0 \/ clk_prepare_enable_ret e PIXEL_CLOCK <> 0 \/
  clk_set_rate_ret e HSM_CLOCK <> 0 \/ clk_prepare_enable_ret e HSM_CLOCK <> 0 ->
  usage_count (exec (vc4_hdmi_encoder_enable K e variant mode) s)
  = usage_count s + 1.
Proof.
  intros Hpm Hfail. apply Z.ltb_ge in Hpm.
  destruct_dev s. unfold_enable. drv_run. drv_rw Hpm.
  destruct (clk_set_rate_ret e PIXEL_CLOCK =? 0) eqn:H1;
    drv_run; drv_rw H1; [| reflexivity].
  destruct (clk_prepare_enable_ret e PIXEL_CLOCK =? 0) eqn:H2;
    drv_run; drv_rw H2; [| reflexivity].
  destruct (clk_set_rate_ret e HSM_CLOCK =? 0) eqn:H3;
    drv_run; drv_rw H3; [| reflexivity].
  destruct (clk_prepare_enable_ret e HSM_CLOCK =? 0) eqn:H4;
    drv_run; drv_rw H4; [| reflexivity].
  apply Z.eqb_eq in H1, H2, H3, H4. exfalso. tauto.
Qed.

(** When the rate of the HSM clock cannot be set, the pixel clock that
    was enabled before stays enabled. *)
Lemma encoder_enable_hsm_rate_failure
      (K : header_consts) (e : kernel_env) (variant : vc4_hdmi_variant)
      (mode : drm_display_mode) (s : vc4_hdmi) :
  0 <= pm_runtime_get_sync_ret e ->
  clk_set_rate_ret e PIXEL_CLOCK = 0 ->
  clk_prepare_enable_ret e PIXEL_CLOCK = 0 ->
  clk_set_rate_ret e HSM_CLOCK <> 0 ->
  let s' := exec (vc4_hdmi_encoder_enable K e variant mode) s in
  clk_enable_count (pixel_clock s') = clk_enable_count (pixel_clock s) + 1 /\
  usage_count s' = usage_count s + 1 /\
  trace s' = trace s ++ [EvError "Failed to set HSM clock rate"].
Proof.
  intros Hpm H1 H2 H3 s'. subst s'.
  apply Z.ltb_ge in Hpm. apply Z.eqb_eq in H1, H2. apply Z.eqb_neq in H3.
  destruct_dev s. unfold_enable. drv_run.
  drv_rw Hpm. drv_rw H1. drv_rw H2. drv_rw H3.
  repeat split; reflexivity.
Qed.

(** When the HSM clock cannot be enabled, the pixel clock is disabled
    again; the power reference is kept. *)
Lemma encoder_enable_hsm_enable_failure
      (K : header_consts) (e : kernel_env) (variant : vc4_hdmi_variant)
      (mode : drm_display_mode) (s : vc4_hdmi) :
  0 <= pm_runtime_get_sync_ret e ->
  clk_set_rate_ret e PIXEL_CLOCK = 0 ->
  clk_prepare_enable_ret e PIXEL_CLOCK = 0 ->
  clk_set_rate_ret e HSM_CLOCK = 0 ->
  clk_prepare_enable_ret e HSM_CLOCK <> 0 ->
  0 <= clk_enable_count (pixel_clock s) ->
  let s' := exec (vc4_hdmi_encoder_enable K e variant mode) s in
  clk_enable_count (pixel_clock s') = clk_enable_count (pixel_clock s) /\
  clk_enable_count (hsm_clock s') = clk_enable_count (hsm_clock s) /\
  usage_count s' = usage_count s + 1.
Proof.
  intros Hpm H1 H2 H3 H4 Hcnt s'. subst s'.
  apply Z.ltb_ge in Hpm. apply Z.eqb_eq in H1, H2, H3. apply Z.eqb_neq in H4.
  destruct_dev s. cbn [pixel_clock clk_enable_count] in Hcnt.
  unfold_enable. drv_run.
  drv_rw Hpm. drv_rw H1. drv_rw H2. drv_rw H3. drv_rw H4.
  match goal with |- context [0 <? ?n + 1] =>
    replace (0 <? n + 1) with true by (symmetry; apply Z.ltb_lt; lia) end.
  drv_run. repeat split; try reflexivity. lia.
Qed.

(** C1, evaluated: [clk_set_rate] fails on the HSM clock during enable.
    The function logs the failure and returns; the pixel clock it enabled
    is still enabled and the power-domain reference it took is still
    held. *)
Theorem encoder_enable_hsm_rate_failure_leaks :
  let s' := exec (vc4_hdmi_encoder_enable Sample.K Sample.env_hsm_rate_fails
                    (bcm2835_variant Sample.K) Sample.mode_1080p) Sample.dev0 in
  trace s' = [EvError "Failed to set HSM clock rate"] /\
  usage_count Sample.dev0 = 0 /\ usage_count s' = 1 /\
  clk_enable_count (pixel_clock Sample.dev0) = 0 /\
  clk_enable_count (pixel_clock s') = 1 /\
  clk_enable_count (hsm_clock s') = 0.
Proof. cbv zeta. repeat split; vm_compute; reflexivity. Qed.

(** ** Hoare rules and commands that keep the resources *)

Lemma hoare_bind {A B} (P : vc4_hdmi -> Prop) (c : M A) (Q : A -> vc4_hdmi -> Prop)
      (k : A -> M B) (R : B -> vc4_hdmi -> Prop) :
  hoare P c Q -> (forall a, hoare (Q a) (k a) R) -> hoare P (bind c k) R.
Proof.
  intros Hc Hk s HP. rewrite eval_bind, exec_bind. apply Hk. apply Hc. exact HP.
Qed.

Lemma hoare_post {A} (P : vc4_hdmi -> Prop) (c : M A) (Q Q' : A -> vc4_hdmi -> Prop) :
  hoare P c Q -> (forall a s, Q a s -> Q' a s) -> hoare P c Q'.
Proof. intros Hc HQ s HP. apply HQ. apply Hc. exact HP. Qed.

Section Keeps.

Variable K : header_consts.
Variable e : kernel_env.

Lemma keeps_ret {A} (a : A) : keeps (ret a).
Proof. intros uc pc hc hm s H. exact H. Qed.

Lemma keeps_bind {A B} (c : M A) (k : A -> M B) :
  keeps c -> (forall a, keeps (k a)) -> keeps (bind c k).
Proof.
  intros Hc Hk uc pc hc hm. eapply hoare_bind; [apply Hc |].
  intros a. apply Hk.
Qed.

Lemma keeps_emit (ev : event) : keeps (emit ev).
Proof. intros uc pc hc hm s H. exact H. Qed.

Lemma keeps_HDMI_WRITE (r : hdmi_reg) (v : Z) : keeps (HDMI_WRITE r v).
Proof. intros uc pc hc hm s H. exact H. Qed.

Lemma keeps_HDMI_READ (r : hdmi_reg) : keeps (HDMI_READ e r).
Proof. intros uc pc hc hm s H. exact H. Qed.

Lemma keeps_wait_for (w : wait_site) : keeps (wait_for e w).
Proof. intros uc pc hc hm s H. exact H. Qed.

Lemma keeps_set_limited_rgb_range (b : bool) : keeps (set_limited_rgb_range b).
Proof. intros uc pc hc hm s H. exact H. Qed.

Lemma keeps_get_limited_rgb_range : keeps get_limited_rgb_range.
Proof. intros uc pc hc hm s H. exact H. Qed.

Lemma keeps_get_audio : keeps get_audio.
Proof. intros uc pc hc hm s H. exact H. Qed.

Lemma keeps_get_hdmi_monitor : keeps get_hdmi_monitor.
Proof. intros uc pc hc hm s H. exact H. Qed.

Lemma keeps_when (b : bool) (c : M unit) : keeps c -> keeps (when b c).
Proof. intros Hc. destruct b; [exact Hc | apply keeps_ret]. Qed.

Lemma keeps_emit_list (evs : list event) : keeps (emit_list evs).
Proof.
  induction evs as [|ev rest IH]; simpl.
  - apply keeps_ret.
  - apply keeps_bind; [apply keeps_emit | intros _; exact IH].
Qed.

End Keeps.

Create HintDb keeps.

#[local] Hint Resolve keeps_ret keeps_emit keeps_HDMI_WRITE keeps_HDMI_READ
  keeps_wait_for keeps_set_limited_rgb_range keeps_get_limited_rgb_range
  keeps_get_audio keeps_get_hdmi_monitor keeps_emit_list : keeps.

(** Proves [keeps c] for code built from the commands above. *)
Ltac keeps_auto :=
  repeat first
    [ solve [auto with keeps]
    | apply keeps_bind; [| intros ?]
    | apply keeps_when
    | match goal with
      | |- keeps (if ?b then _ else _) => destruct b
      | |- keeps (match ?o with Some _ => _ | None => _ end) => destruct o
      end ].

Section KeepsDriver.

Variable K : header_consts.
Variable e : kernel_env.

Lemma keeps_vc4_hdmi_reset : keeps (vc4_hdmi_reset K).
Proof. unfold vc4_hdmi_reset. keeps_auto. Qed.

Lemma keeps_vc5_hdmi_reset : keeps vc5_hdmi_reset.
Proof. unfold vc5_hdmi_reset. keeps_auto. Qed.

Lemma keeps_vc4_hdmi_csc_setup (b : bool) : keeps (vc4_hdmi_csc_setup K b).
Proof. unfold vc4_hdmi_csc_setup. cbv zeta. keeps_auto. Qed.

Lemma keeps_vc5_hdmi_csc_setup (b : bool) : keeps (vc5_hdmi_csc_setup b).
Proof. unfold vc5_hdmi_csc_setup. keeps_auto. Qed.

Lemma keeps_vc4_hdmi_set_timings (mode : drm_display_mode) :
  keeps (vc4_hdmi_set_timings K mode).
Proof. unfold vc4_hdmi_set_timings. keeps_auto. Qed.

Lemma keeps_vc5_hdmi_set_timings (mode : drm_display_mode) :
  keeps (vc5_hdmi_set_timings K mode).
Proof. unfold vc5_hdmi_set_timings. keeps_auto. Qed.

Lemma keeps_vc4_hdmi_stop_packet (type : Z) : keeps (vc4_hdmi_stop_packet e type).
Proof. unfold vc4_hdmi_stop_packet. keeps_auto. Qed.

Lemma keeps_vc4_hdmi_write_infoframe (frame : hdmi_infoframe) :
  keeps (vc4_hdmi_write_infoframe K e frame).
Proof.
  unfold vc4_hdmi_write_infoframe.
  pose proof keeps_vc4_hdmi_stop_packet. keeps_auto.
Qed.

Lemma keeps_vc4_hdmi_set_infoframes : keeps (vc4_hdmi_set_infoframes K e).
Proof.
  pose proof keeps_vc4_hdmi_write_infoframe.
  unfold vc4_hdmi_set_infoframes, vc4_hdmi_set_avi_infoframe,
    vc4_hdmi_set_spd_infoframe, vc4_hdmi_set_audio_infoframe.
  keeps_auto.
Qed.

End KeepsDriver.

(** ** Encoder enable: the link bring-up *)

Lemma hoare_keeps_bind {A B} (c : M A) (k : A -> M B) uc pc hc hm
      (R : B -> vc4_hdmi -> Prop) :
  keeps c ->
  (forall a, hoare (holds uc pc hc hm) (k a) R) ->
  hoare (holds uc pc hc hm) (bind c k) R.
Proof. intros Hc Hk. eapply hoare_bind; [apply Hc | exact Hk]. Qed.

Lemma hoare_monitor_bind {B} (k : bool -> M B) uc pc hc hm
      (R : B -> vc4_hdmi -> Prop) :
  hoare (holds uc pc hc hm) (k hm) R ->
  hoare (holds uc pc hc hm) (bind get_hdmi_monitor k) R.
Proof.
  intros Hk s Hs. rewrite eval_bind, exec_bind.
  assert (Hm : eval get_hdmi_monitor s = hm)
    by (destruct Hs as (_ & _ & _ & H); exact H).
  rewrite Hm. apply Hk. exact Hs.
Qed.

Lemma keeps_fifo_recenter (K : header_consts) (e : kernel_env) :
  keeps (fifo_recenter K e).
Proof. unfold fifo_recenter. cbv zeta. keeps_auto. Qed.

(** From any state, [fifo_recenter] appends the recenter pulse. *)
Lemma fifo_recenter_ends (K : header_consts) (e : kernel_env) (s : vc4_hdmi) :
  ends_with_recenter K e (exec (fifo_recenter K e) s).
Proof.
  destruct_dev s. unfold ends_with_recenter, recenter_events.
  cbv delta [fifo_recenter]. drv_run.
  destruct (wait_for_ret e WAIT_RECENTER_DONE =? 0);
    drv_run; rewrite <- !app_assoc; cbn [app];
    eexists; eexists; reflexivity.
Qed.

#[local] Hint Resolve keeps_vc4_hdmi_reset keeps_vc5_hdmi_reset
  keeps_vc4_hdmi_csc_setup keeps_vc5_hdmi_csc_setup
  keeps_vc4_hdmi_set_timings keeps_vc5_hdmi_set_timings
  keeps_vc4_hdmi_set_infoframes keeps_fifo_recenter : keeps.

(** One step through [encoder_enable_link]: a command that keeps the
    resources is passed, the monitor flag read is the one held. *)
Ltac link_step :=
  lazymatch goal with
  | |- hoare _ (bind get_hdmi_monitor _) _ =>
      apply hoare_monitor_bind; cbv beta iota
  | |- hoare _ (bind _ _) _ =>
      apply hoare_keeps_bind; [solve [keeps_auto] | intros ?; cbv beta iota]
  | |- hoare _ (when true _) _ => cbv beta iota delta [when]
  end.

(** With an HDMI monitor, the link bring-up of either generation keeps
    power and clocks as the clock setup left them and ends with the FIFO
    recenter pulse, whatever the polls answer. *)
Lemma encoder_enable_link_ends
      (K : header_consts) (e : kernel_env) (variant : vc4_hdmi_variant)
      (mode : drm_display_mode) (uc : Z) (pc hc : clk) :
  variant = bcm2835_variant K \/ variant = bcm2711_variant K ->
  hoare (holds uc pc hc true) (encoder_enable_link K e variant mode)
        (fun _ s' => holds uc pc hc true s' /\ ends_with_recenter K e s').
Proof.
  intros [-> | ->];
    cbv beta iota delta [encoder_enable_link bcm2835_variant bcm2711_variant
                         reset phy_init set_timings csc_setup call_hook andb];
    repeat link_step;
    (intros s Hs; split; [apply keeps_fifo_recenter; exact Hs
                         | apply fifo_recenter_ends]).
Qed.

Lemma encoder_enable_clocks_ok
      (K : header_consts) (e : kernel_env) (variant : vc4_hdmi_variant)
      (mode : drm_display_mode) (s : vc4_hdmi) :
  0 <= pm_runtime_get_sync_ret e ->
  clk_set_rate_ret e PIXEL_CLOCK = 0 ->
  clk_prepare_enable_ret e PIXEL_CLOCK = 0 ->
  clk_set_rate_ret e HSM_CLOCK = 0 ->
  clk_prepare_enable_ret e HSM_CLOCK = 0 ->
  exists pixel_rate hsm_rate,
    vc4_hdmi_encoder_enable K e variant mode s
    = encoder_enable_link K e variant mode
        (mk_hdmi (regs s) (usage_count s + 1)
                 (mk_clk pixel_rate (clk_enable_count (pixel_clock s) + 1))
                 (mk_clk hsm_rate (clk_enable_count (hsm_clock s) + 1))
                 (hdmi_monitor s) (limited_rgb_range s) (audio s) (trace s)).
Proof.
  intros Hpm H1 H2 H3 H4.
  apply Z.ltb_ge in Hpm. apply Z.eqb_eq in H1, H2, H3, H4.
  destruct_dev s. unfold_enable. drv_run.
  drv_rw Hpm. drv_rw H1. drv_rw H2. drv_rw H3. drv_rw H4.
  eexists. eexists. reflexivity.
Qed.

(** ** Infoframe writes that time out *)

Lemma emit_list_run (evs : list event) (s : vc4_hdmi) :
  emit_list evs s
  = (tt, mk_hdmi (regs s) (usage_count s) (pixel_clock s) (hsm_clock s)
                 (hdmi_monitor s) (limited_rgb_range s) (audio s)
                 (trace s ++ evs)).
Proof.
  revert s. induction evs as [|ev rest IH]; intros s.
  - destruct s. cbn. rewrite app_nil_r. reflexivity.
  - cbn [emit_list]. unfold bind at 1. cbn [emit]. rewrite IH.
    destruct s. cbn. rewrite <- app_assoc. reflexivity.
Qed.

Ltac unfold_write_infoframe :=
  cbv delta [vc4_hdmi_write_infoframe vc4_hdmi_stop_packet].

(** The slot never reports idle: the writer logs the failure after the
    slot's enable bit was cleared, writes no payload and does not set the
    enable bit again. *)
Lemma write_infoframe_idle_timeout
      (K : header_consts) (e : kernel_env) (frame : hdmi_infoframe) (s : vc4_hdmi) :
  0 <= fst (hdmi_infoframe_pack e frame) ->
  wait_for_ret e (WAIT_PACKET_IDLE (wrap32 (any_type frame - 0x80))) <> 0 ->
  exists warn cfg,
    trace (exec (vc4_hdmi_write_infoframe K e frame) s)
    = trace s ++ warn ++
      [ EvWrite HDMI_RAM_PACKET_CONFIG cfg;
        EvError "Failed to wait for infoframe to go idle" ]
    /\ (warn = [] \/
        warn = [EvWarn "Packet RAM has to be on to store the packet."]).
Proof.
  intros Hlen Hidle. apply Z.ltb_ge in Hlen. apply Z.eqb_neq in Hidle.
  cbv beta delta [fst] in Hlen.
  destruct_dev s. unfold_write_infoframe. drv_run.
  drv_rw Hlen. drv_rw Hidle.
  match goal with |- context [if ?c then _ else _] => destruct c end;
    drv_run; rewrite <- ?app_assoc; cbn [app].
  - eexists [_]. eexists. split; [reflexivity | right; reflexivity].
  - exists []. eexists. split; [reflexivity | left; reflexivity].
Qed.

(** The slot never reports active: the payload was written and the enable
    bit set; the writer logs the failure, and that is all. *)
Lemma write_infoframe_active_timeout
      (K : header_consts) (e : kernel_env) (frame : hdmi_infoframe) (s : vc4_hdmi) :
  0 <= fst (hdmi_infoframe_pack e frame) ->
  wait_for_ret e (WAIT_PACKET_IDLE (wrap32 (any_type frame - 0x80))) = 0 ->
  wait_for_ret e (WAIT_PACKET_ACTIVE (wrap32 (any_type frame - 0x80))) <> 0 ->
  exists pre cfg,
    trace (exec (vc4_hdmi_write_infoframe K e frame) s)
    = trace s ++ pre ++
      [ EvWrite HDMI_RAM_PACKET_CONFIG
          (wrap32 (Z.lor cfg (BIT (wrap32 (any_type frame - 0x80)))));
        EvError "Failed to wait for infoframe to start" ].
Proof.
  intros Hlen Hidle Hact.
  apply Z.ltb_ge in Hlen. apply Z.eqb_eq in Hidle. apply Z.eqb_neq in Hact.
  cbv beta delta [fst] in Hlen.
  destruct_dev s. unfold_write_infoframe. drv_run.
  drv_rw Hlen. drv_rw Hidle.
  match goal with |- context [if ?c then _ else _] => destruct c end;
    drv_run; rewrite emit_list_run; drv_run; drv_rw Hact;
    rewrite <- ?app_assoc; cbn [app].
  - eexists (_ :: _ :: _). eexists. cbn [app]. reflexivity.
  - eexists (_ :: _). eexists. cbn [app]. reflexivity.
Qed.

(** C3 as stated fails: on the sample platform the AVI slot never reports
    idle while the encoder is enabled.  The writer logs the timeout, and
    the enable sequence goes on: the SPD infoframe is written to the packet
    RAM and enabled, the FIFO is recentred, and the encoder ends enabled
    with both clocks running. *)
Lemma encoder_enable_continues_after_infoframe_timeout :
  let run := vc4_hdmi_encoder_enable Sample.K Sample.env_avi_idle_timeout
               (bcm2835_variant Sample.K) Sample.mode_1080p Sample.dev0 in
  wait_for_ret Sample.env_avi_idle_timeout (WAIT_PACKET_IDLE (0x82 - 0x80))
    = - ETIMEDOUT /\
  fst run = tt /\
  (exists pre post,
      trace (snd run)
      = pre ++ EvError "Failed to wait for infoframe to go idle" :: post /\
      In (EvWritel 1132 1638787) post /\
      In (EvWrite HDMI_RAM_PACKET_CONFIG 65544) post /\
      In (EvWrite HDMI_FIFO_CTL 65) post) /\
  clk_enable_count (pixel_clock (snd run)) = 1 /\
  clk_enable_count (hsm_clock (snd run)) = 1 /\
  usage_count (snd run) = 1.
Proof.
  vm_compute.
  split; [reflexivity |]. split; [reflexivity |].
  split; [| split; [reflexivity | split; reflexivity]].
  match goal with |- exists pre post, ?l = _ /\ _ =>
    exists (firstn 25 l), (skipn 26 l) end.
  vm_compute.
  split; [reflexivity |].
  split; [| split]; repeat (first [left; reflexivity | right]).
Qed.

(** C3 (amended): a poll that times out on an infoframe slot is logged and
    not propagated; [vc4_hdmi_write_infoframe] returns nothing.  When the
    slot does not report idle the writer logs the failure and skips that
    infoframe (no payload is written, the enable bit stays cleared); when
    the slot does not report active after its enable bit was set the
    writer only logs the failure.  Neither aborts the enable sequence:
    once the clock setup has succeeded with an HDMI monitor attached,
    [vc4_hdmi_encoder_enable] runs to its end, the FIFO recenter pulse,
    whatever the polls answer, and leaves the power reference and both
    clocks held. *)
Theorem infoframe_timeout_not_fatal :
  forall (K : header_consts) (e : kernel_env) (variant : vc4_hdmi_variant)
         (mode : drm_display_mode) (s : vc4_hdmi),
    variant = bcm2835_variant K \/ variant = bcm2711_variant K ->
    hdmi_monitor s = true ->
    0 <= pm_runtime_get_sync_ret e ->
    clk_set_rate_ret e PIXEL_CLOCK = 0 ->
    clk_prepare_enable_ret e PIXEL_CLOCK = 0 ->
    clk_set_rate_ret e HSM_CLOCK = 0 ->
    clk_prepare_enable_ret e HSM_CLOCK = 0 ->
    let s' := exec (vc4_hdmi_encoder_enable K e variant mode) s in
    (ends_with_recenter K e s'
     /\ usage_count s' = usage_count s + 1
     /\ clk_enable_count (pixel_clock s') = clk_enable_count (pixel_clock s) + 1
     /\ clk_enable_count (hsm_clock s') = clk_enable_count (hsm_clock s) + 1)
    /\ (forall frame s0,
          0 <= fst (hdmi_infoframe_pack e frame) ->
          wait_for_ret e (WAIT_PACKET_IDLE (wrap32 (any_type frame - 0x80))) <> 0 ->
          exists warn cfg,
            trace (exec (vc4_hdmi_write_infoframe K e frame) s0)
            = trace s0 ++ warn ++
              [ EvWrite HDMI_RAM_PACKET_CONFIG cfg;
                EvError "Failed to wait for infoframe to go idle" ]
            /\ (warn = [] \/
                warn = [EvWarn "Packet RAM has to be on to store the packet."]))
    /\ (forall frame s0,
          0 <= fst (hdmi_infoframe_pack e frame) ->
          wait_for_ret e (WAIT_PACKET_IDLE (wrap32 (any_type frame - 0x80))) = 0 ->
          wait_for_ret e (WAIT_PACKET_ACTIVE (wrap32 (any_type frame - 0x80))) <> 0 ->
          exists pre cfg,
            trace (exec (vc4_hdmi_write_infoframe K e frame) s0)
            = trace s0 ++ pre ++
              [ EvWrite HDMI_RAM_PACKET_CONFIG
                  (wrap32 (Z.lor cfg (BIT (wrap32 (any_type frame - 0x80)))));
                EvError "Failed to wait for infoframe to start" ]).
Proof.
  intros K e variant mode s HV Hmon Hpm H1 H2 H3 H4 s'.
  split; [| split].
  - destruct (encoder_enable_clocks_ok K e variant mode s Hpm H1 H2 H3 H4)
      as (pixel_rate & hsm_rate & Heq).
    match type of Heq with _ = encoder_enable_link _ _ _ _ ?s1 =>
      assert (Hex : s' = exec (encoder_enable_link K e variant mode) s1)
        by (subst s'; unfold exec; rewrite Heq; reflexivity);
      pose proof (encoder_enable_link_ends K e variant mode
                    (usage_count s1) (pixel_clock s1) (hsm_clock s1) HV s1) as Hlink
    end.
    rewrite <- Hex in Hlink. clearbody s'. clear Hex Heq.
    cbn [usage_count pixel_clock hsm_clock hdmi_monitor] in Hlink.
    destruct Hlink as [(Huc & Hpc & Hhc & _) Hend].
    + unfold holds. cbn [usage_count pixel_clock hsm_clock hdmi_monitor].
      repeat split; try reflexivity. exact Hmon.
    + split; [exact Hend |]. rewrite Huc, Hpc, Hhc. repeat split; reflexivity.
  - intros frame s0. apply write_infoframe_idle_timeout.
  - intros frame s0. apply write_infoframe_active_timeout.
Qed.

Lemma infoframe_timeout_not_fatal_witness :
  (bcm2835_variant Sample.K = bcm2835_variant Sample.K
   \/ bcm2835_variant Sample.K = bcm2711_variant Sample.K) /\
  hdmi_monitor Sample.dev0 = true /\
  0 <= pm_runtime_get_sync_ret Sample.env_avi_idle_timeout /\
  clk_set_rate_ret Sample.env_avi_idle_timeout PIXEL_CLOCK = 0 /\
  clk_prepare_enable_ret Sample.env_avi_idle_timeout PIXEL_CLOCK = 0 /\
  clk_set_rate_ret Sample.env_avi_idle_timeout HSM_CLOCK = 0 /\
  clk_prepare_enable_ret Sample.env_avi_idle_timeout HSM_CLOCK = 0 /\
  ends_with_recenter Sample.K Sample.env_avi_idle_timeout
    (exec (vc4_hdmi_encoder_enable Sample.K Sample.env_avi_idle_timeout
             (bcm2835_variant Sample.K) Sample.mode_1080p) Sample.dev0).
Proof.
  assert (HV : bcm2835_variant Sample.K = bcm2835_variant Sample.K
               \/ bcm2835_variant Sample.K = bcm2711_variant Sample.K)
    by (left; reflexivity).
  assert (Hmon : hdmi_monitor Sample.dev0 = true) by reflexivity.
  assert (Hpm : 0 <= pm_runtime_get_sync_ret Sample.env_avi_idle_timeout)
    by (intro H; discriminate H).
  assert (H1 : clk_set_rate_ret Sample.env_avi_idle_timeout PIXEL_CLOCK = 0)
    by reflexivity.
  assert (H2 : clk_prepare_enable_ret Sample.env_avi_idle_timeout PIXEL_CLOCK = 0)
    by reflexivity.
  assert (H3 : clk_set_rate_ret Sample.env_avi_idle_timeout HSM_CLOCK = 0)
    by reflexivity.
  assert (H4 : clk_prepare_enable_ret Sample.env_avi_idle_timeout HSM_CLOCK = 0)
    by reflexivity.
  repeat (split; [assumption |]).
  exact (proj1 (proj1 (infoframe_timeout_not_fatal Sample.K
                         Sample.env_avi_idle_timeout (bcm2835_variant Sample.K)
                         Sample.mode_1080p Sample.dev0 HV Hmon Hpm H1 H2 H3 H4))).
Defined.
